(** * CloudWatch alarm to Jira issue bridge: a shallow embedding

    This development embeds [lambda/jira_issue/index.py] in Rocq and proves
    properties of its configuration resolver, event normaliser, ticket field
    builder and filing loop.

    Modelling conventions.
    - A Python [str] is a [string]; one [ascii] stands for one code point
      below 256, so slicing and [len] count characters as Python does.
    - Every dynamically typed value the handler touches arrives through
      JSON (the Lambda event, a secret's payload), so the value universe is
      [json]; Python's [None] is [JNull].  A [dict] is a [gmap string json].
    - A raised exception is the [Raise] branch of [result]; only subclasses
      of [Exception] are modelled.
    - The Python runtime, the process environment, the secret store and the
      tracker are interfaces of the class [Platform].
    - Log records and [print] output are not modelled. *)

From Stdlib Require Import Floats Ascii.
From stdpp Require Import gmap strings list fin_maps pretty.

Set Warnings "-register-all".
Set Default Proof Using "Type*".

(* ------------------------------------------------------------------ *)
(** ** Python string operations *)
(* ------------------------------------------------------------------ *)

Module PyStr.

Definition code (a : ascii) : nat := nat_of_ascii a.

(** [str.isspace] on the code points below 256. *)
Definition isspace (a : ascii) : bool :=
  let n := code a in
  ((9 <=? n) && (n <=? 13)) || ((28 <=? n) && (n <=? 32))
  || (n =? 133) || (n =? 160).

(** [s.startswith(p)] *)
Definition startswith (p s : string) : bool := String.prefix p s.

(** [s[:n]] for [0 <= n] *)
Fixpoint take (n : nat) (s : string) : string :=
  match n, s with
  | S n', String a s' => String a (take n' s')
  | _, _ => EmptyString
  end.

(** [s[n:]] for [0 <= n] *)
Fixpoint drop (n : nat) (s : string) : string :=
  match n, s with
  | S n', String _ s' => drop n' s'
  | _, _ => s
  end.

(** [s.endswith(p)] *)
Definition endswith (p s : string) : bool :=
  (String.length p <=? String.length s)
  && String.eqb (drop (String.length s - String.length p) s) p.

(** [s[i:-j]] for [0 <= i] and [0 < j] *)
Definition slice (i j : nat) (s : string) : string :=
  take (String.length s - j - i) (drop i s).

(** [s.find(p)], [None] for [-1] *)
Definition find (p s : string) : option nat := String.index 0 p s.

(** [p in s] *)
Definition contains (p s : string) : bool :=
  match find p s with Some _ => true | None => false end.

(** [s.split(c, n)] for a one-character separator [c] *)
Fixpoint split_max (c : ascii) (n : nat) (s : string) {struct s} : list string :=
  match n with
  | 0 => [s]
  | S n' =>
      match s with
      | EmptyString => [EmptyString]
      | String a s' =>
          if Ascii.eqb a c then EmptyString :: split_max c n' s'
          else match split_max c n s' with
               | h :: t => String a h :: t
               | [] => [String a EmptyString]
               end
      end
  end.

(** [s.split(c)] for a one-character separator [c] *)
Definition split (c : ascii) (s : string) : list string :=
  split_max c (String.length s) s.

(** [s.split(p, 1)] for a separator [p] of any length *)
Definition split_once (p s : string) : list string :=
  match find p s with
  | Some i => [take i s; drop (i + String.length p) s]
  | None => [s]
  end.

(** the first component of [s.partition(c)] *)
Fixpoint partition_head (c : ascii) (s : string) : string :=
  match s with
  | EmptyString => EmptyString
  | String a s' => if Ascii.eqb a c then EmptyString else String a (partition_head c s')
  end.

Fixpoint lstrip (s : string) : string :=
  match s with
  | EmptyString => EmptyString
  | String a s' => if isspace a then lstrip s' else s
  end.

Definition rstrip (s : string) : string := String.rev (lstrip (String.rev s)).

(** [s.strip()] *)
Definition strip (s : string) : string := rstrip (lstrip s).

(** [s.replace(a, b)] for one-character [a] and [b] *)
Fixpoint replace (a b : ascii) (s : string) : string :=
  match s with
  | EmptyString => EmptyString
  | String x s' => String (if Ascii.eqb x a then b else x) (replace a b s')
  end.

Definition lower_char (a : ascii) : ascii :=
  let n := code a in
  if ((65 <=? n) && (n <=? 90))
     || ((192 <=? n) && (n <=? 222) && negb (n =? 215))
  then ascii_of_nat (n + 32) else a.

(** [s.lower()] *)
Fixpoint lower (s : string) : string :=
  match s with
  | EmptyString => EmptyString
  | String a s' => String (lower_char a) (lower s')
  end.

(** [sep.join(parts)] *)
Fixpoint join (sep : string) (parts : list string) : string :=
  match parts with
  | [] => EmptyString
  | [p] => p
  | p :: rest => p +:+ sep +:+ join sep rest
  end.

Fixpoint has_char (c : ascii) (s : string) : bool :=
  match s with
  | EmptyString => false
  | String a s' => Ascii.eqb a c || has_char c s'
  end.

End PyStr.

(* ------------------------------------------------------------------ *)
(** ** Values, exceptions and results *)
(* ------------------------------------------------------------------ *)

Inductive json : Type :=
| JNull
| JBool (b : bool)
| JInt (z : Z)
| JFloat (f : float)
| JStr (s : string)
| JArr (l : list json)
| JObj (m : gmap string json).

Abbreviation dict := (gmap string json).

(** [bool(v)] *)
Definition truthy (v : json) : bool :=
  match v with
  | JNull => false
  | JBool b => b
  | JInt z => negb (z =? 0)%Z
  | JFloat f => negb (PrimFloat.eqb f 0%float)
  | JStr s => negb (String.eqb s "")
  | JArr l => negb (bool_decide (l = []))
  | JObj m => negb (bool_decide (size m = 0))
  end.

Definition is_dict (v : json) : bool :=
  match v with JObj _ => true | _ => false end.

(** [type(v).__name__] *)
Definition type_name (v : json) : string :=
  match v with
  | JNull => "NoneType"
  | JBool _ => "bool"
  | JInt _ => "int"
  | JFloat _ => "float"
  | JStr _ => "str"
  | JArr _ => "list"
  | JObj _ => "dict"
  end.

(** [d.get(k)] *)
Definition dict_get (d : dict) (k : string) : json := default JNull (d !! k).

(** [d.get(k, fallback)] *)
Definition dict_get_or (d : dict) (k : string) (fallback : json) : json :=
  default fallback (d !! k).

(** [k in d] *)
Definition dict_has (d : dict) (k : string) : bool :=
  match d !! k with Some _ => true | None => false end.

Inductive exn : Type :=
| ValueError (msg : string)
| KeyError (msg : string)
| TypeError (msg : string)
| AttributeError (msg : string)
| EnvironmentError (msg : string)
| RuntimeError (msg : string)
| JIRAError (status_code : option Z) (text : option string)
| OtherError (cls msg : string).

Inductive result (A : Type) : Type :=
| Ok (a : A)
| Raise (e : exn).
Arguments Ok {A} a.
Arguments Raise {A} e.

Definition rbind {A B} (r : result A) (k : A -> result B) : result B :=
  match r with
  | Ok a => k a
  | Raise e => Raise e
  end.

Notation "x <- r ;; k" := (rbind r (fun x => k))
  (at level 100, r at next level, right associativity).

Definition is_ok {A} (r : result A) : bool :=
  match r with Ok _ => true | Raise _ => false end.

(* ------------------------------------------------------------------ *)
(** ** Interfaces of the outside world *)
(* ------------------------------------------------------------------ *)

(** The reply of [get_secret_value]; an absent or [None] entry is [None]. *)
Record secret_response : Type := {
  SecretString : option string;
  SecretBinary : option string
}.

(** The arguments [JIRA(server=..., basic_auth=(..., ...))] was built from. *)
Record jira_client : Type := {
  server : json;
  basic_auth : json * json
}.

Record project : Type := {
  proj_name : string;
  proj_key : string
}.

Inductive assignee : Type :=
| AssigneeId (id : json)       (* {"id": ...} *)
| AssigneeName (name : json).  (* {"name": ...} *)

(** The dictionary built by [_build_issue_fields]; the two optional entries
    are absent from the dictionary when [None]. *)
Record issue_fields : Type := {
  f_project_key : json;
  f_summary : string;
  f_description : string;
  f_issuetype : json;
  f_labels : list string;
  f_components : option (list string);
  f_assignee : option assignee
}.

(** One request sent to the tracker. *)
Inductive call : Type :=
| CallConnect (c : jira_client)
| CallProjects (c : jira_client)
| CallCreateIssue (c : jira_client) (fields : issue_fields).

(** What [json.loads] does with a text.  It returns the decoded value,
    raises [json.JSONDecodeError] when the text is not JSON, or raises
    something else: a plain [ValueError] for an integer literal longer than
    the interpreter's digit limit, a [RecursionError] for a document nested
    too deeply.  Only the second is caught by [except json.JSONDecodeError]. *)
Inductive loaded : Type :=
| Parsed (v : json)
| NotJson
| LoadFailed (exc : exn).

(** The Python runtime, the process environment, the secret store and the
    tracker.  The environment and the secret store are read-only for the
    lifetime of the process; the tracker's reply may depend on every
    request the process has sent before. *)
Class Platform : Type := {
  (** [json.loads] *)
  json_loads : string -> loaded;
  json_loads_empty : json_loads "" = NotJson;
  (** [json.dumps(v, indent=2, default=str)] *)
  json_dumps : json -> string;
  (** [str(v)] for a value that is not a [str] *)
  py_str : json -> string;
  (** [repr(s)] for a [str] *)
  py_repr : string -> string;
  (** [os.getenv] *)
  getenv : string -> option string;
  (** [boto3.client("secretsmanager").get_secret_value(SecretId=...)] *)
  get_secret_value : string -> result secret_response;
  (** [base64.b64decode(b).decode("utf-8")] *)
  b64decode_utf8 : string -> result string;
  (** [str(exc)] for a [JIRAError] *)
  jira_error_str : option Z -> option string -> string;
  (** [JIRA(server=..., basic_auth=...)] *)
  jira_connect : list call -> jira_client -> result unit;
  (** [client.projects()] *)
  jira_projects : list call -> jira_client -> result (list project);
  (** [client.create_issue(fields).key] *)
  jira_create_issue : list call -> jira_client -> issue_fields -> result string
}.

(* ------------------------------------------------------------------ *)
(** ** The handler's code *)
(* ------------------------------------------------------------------ *)

Section Handler.

Context `{Platform}.

Import PyStr.

(** What an f-string puts for [{v}]. *)
Definition format_value (v : json) : string :=
  match v with
  | JStr s => s
  | _ => py_str v
  end.

(** [str(exc)] *)
Definition exn_str (e : exn) : string :=
  match e with
  | ValueError msg | TypeError msg | AttributeError msg
  | EnvironmentError msg | RuntimeError msg | OtherError _ msg => msg
  | KeyError msg => py_repr msg
  | JIRAError status text => jira_error_str status text
  end.

(** *** Environment helpers *)

(** The two process-lifetime memo tables on [_fetch_secret_string] and
    [_resolve_secret_reference], and the ones on [_get_secret_payload],
    [get_issue_type], [get_alarm_label] and [get_components], wrap
    functions of the read-only environment and secret store only: a memo
    hit returns what a fresh call returns, and an exception is never
    stored.  They are therefore left out.  The memo tables of
    [get_jira_client] and [get_project_key] decide which requests reach
    the tracker and are part of [state] below. *)

Definition _fetch_secret_string (secret_id : string) : result string :=
  response <- get_secret_value secret_id ;;
  match SecretString response with
  | Some s => Ok s
  | None =>
      match SecretBinary response with
      | Some b => b64decode_utf8 b
      | None => Raise (RuntimeError ("Secret '" +:+ secret_id +:+ "' contains no retrievable value"))
      end
  end.

Definition reference_prefix : string := "{{resolve:secretsmanager:".
Definition reference_suffix : string := "}}".
Definition secret_marker : string := ":SecretString".

(** The JSON key of a selector such as [:key::]; [None] when there is none. *)
Definition selector_key (json_selector : string) : option string :=
  if startswith ":" json_selector then
    let key := partition_head ":" (drop 1 json_selector) in
    if String.eqb key "" then None else Some key
  else None.

(** [key not in secret_json] followed by [secret_json[key]] *)
Definition secret_lookup (secret_id key : string) (secret_json : json) : result json :=
  let missing := Raise (KeyError ("Key '" +:+ key +:+ "' not found in secret '" +:+ secret_id +:+ "'")) in
  match secret_json with
  | JObj m =>
      match m !! key with
      | Some v => Ok v
      | None => missing
      end
  | JArr l =>
      if existsb (fun e => match e with JStr s => String.eqb s key | _ => false end) l
      then Raise (TypeError "list indices must be integers or slices, not str")
      else missing
  | JStr s =>
      if contains key s
      then Raise (TypeError "string indices must be integers, not 'str'")
      else missing
  | v => Raise (TypeError ("argument of type '" +:+ type_name v +:+ "' is not iterable"))
  end.

Definition _resolve_secret_reference (value : string) : result json :=
  if String.eqb value "" || negb (startswith reference_prefix value)
     || negb (endswith reference_suffix value)
  then Ok (JStr value)
  else
    let body := slice 2 2 value in
    match split_max ":" 2 body with
    | [_; service; remainder] =>
        if negb (String.eqb service "secretsmanager") then Ok (JStr value)
        else if negb (contains secret_marker remainder)
        then Raise (ValueError ("Secrets Manager reference missing SecretString directive: " +:+ value))
        else
          match split_once secret_marker remainder with
          | [secret_id; json_selector] =>
              let secret_id := strip secret_id in
              let key := selector_key json_selector in
              secret_string <- _fetch_secret_string secret_id ;;
              match key with
              | None => Ok (JStr secret_string)
              | Some key =>
                  match json_loads secret_string with
                  | NotJson => Raise (ValueError ("Secret '" +:+ secret_id +:+ "' is not JSON; cannot extract key '" +:+ key +:+ "'"))
                  | LoadFailed exc => Raise exc
                  | Parsed secret_json => secret_lookup secret_id key secret_json
                  end
              end
          | _ => Raise (ValueError "not enough values to unpack")
          end
    | _ => Raise (ValueError ("Malformed secrets manager reference: " +:+ value))
    end.

Definition _get_secret_payload : result dict :=
  match getenv "JIRA_SECRET_NAME" with
  | None => Ok ∅
  | Some secret_name =>
      if String.eqb secret_name "" then Ok ∅
      else
        secret_string <- _fetch_secret_string secret_name ;;
        match json_loads secret_string with
        | NotJson => Raise (ValueError ("Secret '" +:+ secret_name +:+ "' is not valid JSON"))
        | LoadFailed exc => Raise exc
        | Parsed (JObj payload) => Ok payload
        | Parsed _ => Raise (ValueError ("Secret '" +:+ secret_name +:+ "' must resolve to a JSON object"))
        end
  end.

Definition _get_env (name : string) (required : bool) (default : option string) : result json :=
  let value := from_option JStr JNull (getenv name) in
  value <- match value with
           | JStr s =>
               if negb (String.eqb s "") then
                 resolved <- _resolve_secret_reference s ;;
                 Ok (match resolved with JNull => value | _ => resolved end)
               else Ok value
           | _ => Ok value
           end ;;
  value <- (if negb (truthy value) then
              secret_payload <- _get_secret_payload ;;
              Ok (match secret_payload !! name with
                  | Some v => v
                  | None => value
                  end)
            else Ok value) ;;
  let value := match value with
               | JNull => from_option JStr JNull default
               | _ => value
               end in
  if required && negb (truthy value)
  then Raise (EnvironmentError ("Environment variable '" +:+ name +:+ "' is required"))
  else Ok value.

Definition get_issue_type : result json :=
  v <- _get_env "JIRA_ISSUE_TYPE" false (Some "Task") ;;
  Ok (if truthy v then v else JStr "Task").

(** [[part.strip().replace(" ", "-") for part in raw.split(",") if part.strip()]] *)
Definition label_tokens (raw : string) : list string :=
  map (fun part => replace " " "-" (strip part))
      (List.filter (fun part => negb (String.eqb (strip part) "")) (split "," raw)).

Definition get_alarm_label : result (list string) :=
  raw_label <- _get_env "JIRA_ALARM_LABEL" false None ;;
  if truthy raw_label then
    match raw_label with
    | JStr s => Ok (label_tokens s)
    | v => Raise (AttributeError ("'" +:+ type_name v +:+ "' object has no attribute 'split'"))
    end
  else Ok [].

Definition get_components : result (list string) :=
  raw <- _get_env "JIRA_COMPONENTS" false None ;;
  if negb (truthy raw) then Ok []
  else
    match raw with
    | JStr s =>
        Ok (map strip (List.filter (fun component => negb (String.eqb (strip component) "")) (split "," s)))
    | v => Raise (AttributeError ("'" +:+ type_name v +:+ "' object has no attribute 'split'"))
    end.

(** *** Event parsing helpers *)

Definition _maybe_json (value : json) : result json :=
  match value with
  | JStr s =>
      match json_loads s with
      | Parsed decoded => Ok decoded
      | NotJson => Ok value
      | LoadFailed exc => Raise exc
      end
  | _ => Ok value
  end.

(** [record.get("Sns", {}).get("Message") if isinstance(record, dict) else None] *)
Definition sns_message (record : json) : result json :=
  match record with
  | JObj r =>
      match dict_get_or r "Sns" (JObj ∅) with
      | JObj sns => Ok (dict_get sns "Message")
      | v => Raise (AttributeError ("'" +:+ type_name v +:+ "' object has no attribute 'get'"))
      end
  | _ => Ok JNull
  end.

Definition raw_record (message : json) : dict := {[ "raw_message" := message ]}.

(** The loop over [event["Records"]]; [payloads] is the list built so far. *)
Fixpoint sns_payloads (records : list json) (payloads : list dict) : result (list dict) :=
  match records with
  | [] => Ok payloads
  | record :: rest =>
      message <- sns_message record ;;
      if negb (truthy message) then sns_payloads rest payloads
      else
        candidate <- _maybe_json message ;;
        match candidate with
        | JObj candidate => sns_payloads rest (payloads ++ [candidate])
        | _ => sns_payloads rest (payloads ++ [raw_record message])
        end
  end.

(** The loop over a list event. *)
Fixpoint list_payloads (items : list json) (payloads : list dict) : result (list dict) :=
  match items with
  | [] => Ok payloads
  | item :: rest =>
      candidate <- _maybe_json item ;;
      match candidate with
      | JObj candidate => list_payloads rest (payloads ++ [candidate])
      | _ => list_payloads rest payloads
      end
  end.

Definition unsupported_event : exn :=
  ValueError "Unsupported event payload format for CloudWatch alarm".

(** [event["detail"]] when [event.get("detail-type")] is the state-change
    marker and [event.get("detail")] is a dict. *)
Definition state_change_detail (event : dict) : option dict :=
  match dict_get event "detail-type", dict_get event "detail" with
  | JStr s, JObj detail =>
      if String.eqb s "CloudWatch Alarm State Change" then Some detail else None
  | _, _ => None
  end.

Definition _extract_alarm_payloads (event : json) : result (list dict) :=
  event <- match event with JStr _ => _maybe_json event | _ => Ok event end ;;
  match event with
  | JObj e =>
      match e !! "Records" with
      | Some (JArr records) => sns_payloads records []
      | _ =>
          match state_change_detail e with
          | Some detail => Ok [detail]
          | None =>
              if dict_has e "AlarmName" && dict_has e "NewStateValue" then Ok [e]
              else Raise unsupported_event
          end
      end
  | JArr items => list_payloads items []
  | _ => Raise unsupported_event
  end.

(** *** Jira issue creation helpers *)

Definition _build_summary (alarm : dict) : string :=
  let alarm_name := dict_get_or alarm "AlarmName" (JStr "Unknown Alarm") in
  let state := dict_get_or alarm "NewStateValue" (JStr "UNKNOWN") in
  let summary := "[CloudWatch] " +:+ format_value alarm_name +:+ " is " +:+ format_value state in
  take 255 summary.

(** The strings of [parts], or the [TypeError] of [str.join] at the first
    item, counted from [i], that is not a [str]. *)
Fixpoint join_items (i : nat) (parts : list json) : result (list string) :=
  match parts with
  | [] => Ok []
  | JStr s :: rest => strs <- join_items (S i) rest ;; Ok (s :: strs)
  | v :: _ =>
      Raise (TypeError ("sequence item " +:+ pretty i +:+ ": expected str instance, "
                        +:+ type_name v +:+ " found"))
  end.

Definition _build_description (alarm : dict) : result string :=
  let na := JStr "N/A" in
  let unknown := JStr "UNKNOWN" in
  let parts :=
    [ JStr "CloudWatch alarm transitioned state.";
      JStr "";
      JStr ("Alarm Name: " +:+ format_value (dict_get_or alarm "AlarmName" na));
      JStr ("Alarm Description: " +:+ format_value (dict_get_or alarm "AlarmDescription" na));
      JStr ("AWS Account: " +:+ format_value (dict_get_or alarm "AWSAccountId" na));
      JStr ("Region: " +:+ format_value (dict_get_or alarm "Region" na));
      JStr ("State Change Time: " +:+ format_value (dict_get_or alarm "StateChangeTime" na));
      JStr ("Previous State: " +:+ format_value (dict_get_or alarm "OldStateValue" unknown));
      JStr ("Current State: " +:+ format_value (dict_get_or alarm "NewStateValue" unknown));
      JStr "";
      JStr "New State Reason:";
      dict_get_or alarm "NewStateReason" na ] in
  let trigger := dict_get alarm "Trigger" in
  let parts :=
    if truthy trigger
    then parts ++ [JStr ""; JStr "Trigger:"; JStr (json_dumps trigger)]
    else parts in
  let raw := dict_get alarm "raw_message" in
  let parts :=
    if truthy raw
    then parts ++ [JStr ""; JStr "Original Message:";
                   match raw with JStr _ => raw | _ => JStr (json_dumps raw) end]
    else parts in
  strs <- join_items 0 parts ;;
  Ok (join (String "010" EmptyString) strs).

(** *** Process state *)

(** The requests sent to the tracker so far, oldest first, and the memo
    tables of [get_jira_client] and [get_project_key]. *)
Record state : Type := {
  calls : list call;
  client_cache : option jira_client;
  project_key_cache : option json
}.

(** A new process. *)
Definition cold : state :=
  {| calls := []; client_cache := None; project_key_cache := None |}.

Definition M (A : Type) : Type := state -> result A * state.

Definition ret {A} (a : A) : M A := fun w => (Ok a, w).

Definition bind {A B} (m : M A) (k : A -> M B) : M B :=
  fun w =>
    match m w with
    | (Ok a, w') => k a w'
    | (Raise e, w') => (Raise e, w')
    end.

Notation "x <~ m ;; k" := (bind m (fun x => k))
  (at level 100, m at next level, right associativity).

Definition lift {A} (r : result A) : M A := fun w => (r, w).

(** [@lru_cache(maxsize=1)] on a function without arguments: a stored
    result is returned as it is, a fresh one is stored, an exception is
    not. *)
Definition lru_cache1 {A} (get : state -> option A) (set : A -> state -> state)
    (body : M A) : M A :=
  fun w =>
    match get w with
    | Some a => (Ok a, w)
    | None =>
        match body w with
        | (Ok a, w') => (Ok a, set a w')
        | (Raise e, w') => (Raise e, w')
        end
    end.

Definition set_client_cache (c : jira_client) (w : state) : state :=
  {| calls := calls w; client_cache := Some c; project_key_cache := project_key_cache w |}.

Definition set_project_key_cache (k : json) (w : state) : state :=
  {| calls := calls w; client_cache := client_cache w; project_key_cache := Some k |}.

(** Send one request: the reply depends on the requests sent before it. *)
Definition request {A} (c : call) (reply : list call -> result A) : M A :=
  fun w =>
    (reply (calls w),
     {| calls := calls w ++ [c];
        client_cache := client_cache w;
        project_key_cache := project_key_cache w |}).

Definition JIRA (c : jira_client) : M unit :=
  request (CallConnect c) (fun history => jira_connect history c).

Definition client_projects (c : jira_client) : M (list project) :=
  request (CallProjects c) (fun history => jira_projects history c).

Definition client_create_issue (c : jira_client) (fields : issue_fields) : M string :=
  request (CallCreateIssue c fields) (fun history => jira_create_issue history c fields).

Definition get_jira_client : M jira_client :=
  lru_cache1 client_cache set_client_cache
    (host <~ lift (_get_env "JIRA_HOST" true None) ;;
     email <~ lift (_get_env "JIRA_EMAIL" true None) ;;
     token <~ lift (_get_env "JIRA_API_TOKEN" true None) ;;
     let client := {| server := host; basic_auth := (email, token) |} in
     _ <~ JIRA client ;;
     ret client).

(** The loop over [client.projects()]. *)
Fixpoint find_project (project_name : json) (projects : list project) : result json :=
  match projects with
  | [] =>
      Raise (RuntimeError ("Unable to resolve Jira project key for name '"
                           +:+ format_value project_name +:+ "'"))
  | p :: rest =>
      match project_name with
      | JStr name =>
          if String.eqb (lower (proj_name p)) (lower name)
          then Ok (JStr (proj_key p))
          else find_project project_name rest
      | v => Raise (AttributeError ("'" +:+ type_name v +:+ "' object has no attribute 'lower'"))
      end
  end.

Definition get_project_key : M json :=
  lru_cache1 project_key_cache set_project_key_cache
    (cached_key <~ lift (_get_env "JIRA_PROJECT_KEY" false None) ;;
     if truthy cached_key then ret cached_key
     else
       project_name <~ lift (_get_env "JIRA_PROJECT_NAME" true None) ;;
       client <~ get_jira_client ;;
       projects <~ client_projects client ;;
       lift (find_project project_name projects)).

Definition _build_issue_fields (alarm : dict) : M issue_fields :=
  project <~ get_project_key ;;
  let summary := _build_summary alarm in
  description <~ lift (_build_description alarm) ;;
  issuetype <~ lift get_issue_type ;;
  labels <~ lift get_alarm_label ;;
  components <~ lift get_components ;;
  assignee_account_id <~ lift (_get_env "JIRA_DEFAULT_ASSIGNEE_ACCOUNT_ID" false None) ;;
  assignee <~ (if truthy assignee_account_id
               then ret (Some (AssigneeId assignee_account_id))
               else
                 assignee <~ lift (_get_env "JIRA_DEFAULT_ASSIGNEE" false None) ;;
                 ret (if truthy assignee then Some (AssigneeName assignee) else None)) ;;
  ret {| f_project_key := project;
         f_summary := summary;
         f_description := description;
         f_issuetype := issuetype;
         f_labels := labels;
         f_components := match components with [] => None | _ => Some components end;
         f_assignee := assignee |}.

(** *** Lambda handler *)

(** One entry of [results]. *)
Inductive outcome : Type :=
| Created (issue_key : string)
| Unstructured (alarm : json)
| JiraFailed (details : json) (alarm : json)
| Unexpected (details : string) (alarm : json).

(** The dictionary an [outcome] stands for. *)
Definition outcome_dict (o : outcome) : dict :=
  match o with
  | Created issue_key =>
      {[ "issue_key" := JStr issue_key; "action" := JStr "created" ]}
  | Unstructured alarm =>
      {[ "error" := JStr "unstructured_alarm_message"; "alarm" := alarm ]}
  | JiraFailed details alarm =>
      {[ "error" := JStr "jira_error"; "details" := details; "alarm" := alarm ]}
  | Unexpected details alarm =>
      {[ "error" := JStr "unexpected_exception"; "details" := JStr details; "alarm" := alarm ]}
  end.

Record response : Type := {
  request_id : json;
  processed : nat;
  results : list outcome
}.

(** ["raw_message" in alarm and len(alarm) == 1] *)
Definition is_unstructured (alarm : dict) : bool :=
  dict_has alarm "raw_message" && (size alarm =? 1).

(** The body of the [try] block for one alarm. *)
Definition file_alarm (client : jira_client) (alarm : dict) : M outcome :=
  if is_unstructured alarm then ret (Unstructured (dict_get alarm "raw_message"))
  else
    fields <~ _build_issue_fields alarm ;;
    issue_key <~ client_create_issue client fields ;;
    ret (Created issue_key).

(** The outcome the two [except] clauses record for [exc]. *)
Definition except_clauses (alarm : dict) (exc : exn) : outcome :=
  match exc with
  | JIRAError _ text => JiraFailed (from_option JStr JNull text) (dict_get alarm "AlarmName")
  | _ => Unexpected (exn_str exc) (dict_get alarm "AlarmName")
  end.

(** One turn of the loop: the [try] block and its [except] clauses. *)
Definition process_alarm (client : jira_client) (alarm : dict) : M outcome :=
  fun w =>
    match file_alarm client alarm w with
    | (Ok o, w') => (Ok o, w')
    | (Raise exc, w') => (Ok (except_clauses alarm exc), w')
    end.

(** The loop over [alarms]; [outcomes] is the list built so far. *)
Fixpoint process_alarms (client : jira_client) (alarms : list dict)
    (outcomes : list outcome) : M (list outcome) :=
  match alarms with
  | [] => ret outcomes
  | alarm :: rest =>
      o <~ process_alarm client alarm ;;
      process_alarms client rest (outcomes ++ [o])
  end.

(** [aws_request_id] is [getattr(context, "aws_request_id", None)]. *)
Definition handler (event : json) (aws_request_id : json) : M response :=
  alarms <~ lift (_extract_alarm_payloads event) ;;
  client <~ get_jira_client ;;
  outcomes <~ process_alarms client alarms [] ;;
  ret {| request_id := aws_request_id;
         processed := length outcomes;
         results := outcomes |}.

End Handler.

(* ------------------------------------------------------------------ *)
(** ** A concrete platform for examples *)
(* ------------------------------------------------------------------ *)

Module Demo.

(** The double quote character, as a string. *)
Definition dq : string := String "034" EmptyString.

Fixpoint assoc {A} (k : string) (l : list (string * A)) : option A :=
  match l with
  | [] => None
  | (k', v) :: rest => if String.eqb k k' then Some v else assoc k rest
  end.

(** What an example fixes: the environment variables, the secrets by
    id, the JSON documents the parser knows, and the summaries of the
    issues the tracker refuses. *)
Record world : Type := {
  env : list (string * string);
  secrets : list (string * string);
  documents : list (string * json);
  refused : list string
}.

Definition show (v : json) : string :=
  match v with
  | JNull => "None"
  | JBool true => "True"
  | JBool false => "False"
  | JInt z => pretty z
  | _ => "?"
  end.

Definition create_issue (w : world) (history : list call) (fields : issue_fields)
    : result string :=
  if existsb (String.eqb (f_summary fields)) (refused w)
  then Raise (JIRAError (Some 400%Z) (Some "issue refused"))
  else Ok ("OPS-" +:+ pretty (length history)).

(** An integer literal of more than 4300 digits: [json.loads] raises the
    interpreter's plain [ValueError] for it. *)
Fixpoint all_digits (s : string) : bool :=
  match s with
  | EmptyString => true
  | String c rest =>
      (48 <=? N_of_ascii c)%N && (N_of_ascii c <=? 57)%N && all_digits rest
  end.

Fixpoint digits (s : string) : N :=
  match s with
  | EmptyString => 0%N
  | String _ rest => N.succ (digits rest)
  end.

(** The error of [int] for a literal of [n] digits, [n] above the limit. *)
Definition digit_limit_error (n : N) : exn :=
  ValueError ("Exceeds the limit (4300 digits) for integer string conversion: value has "
              +:+ pretty n
              +:+ " digits; use sys.set_int_max_str_digits() to increase the limit").

Definition loads (w : world) (s : string) : loaded :=
  if String.eqb s "" then NotJson
  else if all_digits s && (4300 <? digits s)%N then LoadFailed (digit_limit_error (digits s))
  else match assoc s (documents w) with
       | Some v => Parsed v
       | None => NotJson
       end.

Definition platform (w : world) : Platform :=
  {| json_loads := loads w;
     json_loads_empty := eq_refl;
     json_dumps := show;
     py_str := show;
     py_repr s := "'" +:+ s +:+ "'";
     getenv name := assoc name (env w);
     get_secret_value id :=
       match assoc id (secrets w) with
       | Some s => Ok {| SecretString := Some s; SecretBinary := None |}
       | None => Raise (OtherError "ResourceNotFoundException" id)
       end;
     b64decode_utf8 b := Ok b;
     jira_error_str _ text := default "" text;
     jira_connect _ _ := Ok ();
     jira_projects _ _ := Ok [ {| proj_name := "Operations"; proj_key := "OPS" |} ];
     jira_create_issue history _ fields := create_issue w history fields |}.

(** Tracker credentials and a project key, nothing else. *)
Definition base_env : list (string * string) :=
  [ ("JIRA_HOST", "https://example.atlassian.net");
    ("JIRA_EMAIL", "bot@example.com");
    ("JIRA_API_TOKEN", "t0ken");
    ("JIRA_PROJECT_KEY", "OPS") ].

(** The text [{"apiKey":"tok123"}]. *)
Definition api_key_text : string :=
  "{" +:+ dq +:+ "apiKey" +:+ dq +:+ ":" +:+ dq +:+ "tok123" +:+ dq +:+ "}".

Definition api_key_reference : string :=
  "{{resolve:secretsmanager:region:secret-id:SecretString:apiKey::}}".

Definition with_secret : world :=
  {| env := [ ("JIRA_API_TOKEN", api_key_reference) ];
     secrets := [ ("region:secret-id", api_key_text) ];
     documents := [ (api_key_text, JObj {[ "apiKey" := JStr "tok123" ]}) ];
     refused := [] |}.

(** [api_key_reference] with one closing brace missing. *)
Definition broken_reference : string :=
  "{{resolve:secretsmanager:region:secret-id:SecretString:apiKey::}".

(** [JIRA_ISSUE_TYPE] is set, to the empty string. *)
Definition empty_issue_type : world :=
  {| env := ("JIRA_ISSUE_TYPE", "") :: base_env;
     secrets := []; documents := []; refused := [] |}.

Definition with_labels : world :=
  {| env := ("JIRA_ALARM_LABEL", "Prod Outage, SEV1") :: base_env;
     secrets := []; documents := []; refused := [] |}.

Definition alarm (name : string) : dict :=
  {[ "AlarmName" := JStr name; "NewStateValue" := JStr "ALARM" ]}.

(** The tracker refuses the issue of alarm [b]. *)
Definition refusing : world :=
  {| env := base_env; secrets := []; documents := [];
     refused := [ "[CloudWatch] b is ALARM" ] |}.

Definition three_alarms : json :=
  JArr [ JObj (alarm "a"); JObj (alarm "b"); JObj (alarm "c") ].

(** Tracker credentials, neither a project key nor a project name. *)
Definition no_project : world :=
  {| env := [ ("JIRA_HOST", "https://example.atlassian.net");
              ("JIRA_EMAIL", "bot@example.com");
              ("JIRA_API_TOKEN", "t0ken") ];
     secrets := []; documents := []; refused := [] |}.

(** The client [get_jira_client] builds from [base_env]. *)
Definition client : jira_client :=
  {| server := JStr "https://example.atlassian.net";
     basic_auth := (JStr "bot@example.com", JStr "t0ken") |}.

(** A message that is JSON, and an array. *)
Definition array_text : string := "[1, 2]".

Definition with_array_message : world :=
  {| env := base_env; secrets := [];
     documents := [ (array_text, JArr [JInt 1; JInt 2]) ];
     refused := [] |}.

Definition sns_envelope : dict := {[ "Message" := JStr array_text ]}.

Definition sns_record : dict := {[ "Sns" := JObj sns_envelope ]}.

Definition sns_event : dict := {[ "Records" := JArr [JObj sns_record] ]}.

Fixpoint repeat_char (c : ascii) (n : nat) : string :=
  match n with
  | O => EmptyString
  | S n => String c (repeat_char c n)
  end.

(** The digit [4], 4400 times. *)
Definition long_number : string := repeat_char "4" (44 * 100).

(** A project key, no tracker host. *)
Definition no_host : world :=
  {| env := [ ("JIRA_EMAIL", "bot@example.com");
              ("JIRA_API_TOKEN", "t0ken");
              ("JIRA_PROJECT_KEY", "OPS") ];
     secrets := []; documents := []; refused := [] |}.

End Demo.

(* ------------------------------------------------------------------ *)
(** ** Vocabulary of the statements *)
(* ------------------------------------------------------------------ *)

Section Vocabulary.

Context `{Platform}.

(** The error [_get_env] raises for a required setting that is empty. *)
Definition required_error (name : string) : exn :=
  EnvironmentError ("Environment variable '" +:+ name +:+ "' is required").

(** The process environment offers nothing for [name], and [v] is the
    empty value [_get_env] then holds: [None] for a variable that is not
    set, the empty string for one set to it, and for a variable that is
    set and not empty the value it dereferences to, when that value is
    empty without being [None]. *)
Definition offers_nothing (name : string) (v : json) : Prop :=
  (getenv name = None ∧ v = JNull)
  ∨ (getenv name = Some "" ∧ v = JStr "")
  ∨ (∃ s, getenv name = Some s ∧ s ≠ ""
          ∧ _resolve_secret_reference s = Ok v ∧ v ≠ JNull ∧ truthy v = false).

(** [filed client w alarms outcomes w']: from the state [w], the loop
    turns each alarm of [alarms], first to last, into the outcome at the
    same position of [outcomes], and ends in [w']. *)
Inductive filed (client : jira_client) : state → list dict → list outcome → state → Prop :=
| filed_nil w : filed client w [] [] w
| filed_cons w alarm o w1 rest os w2 :
    process_alarm client alarm w = (Ok o, w1) →
    filed client w1 rest os w2 →
    filed client w (alarm :: rest) (o :: os) w2.

(** One of the tracker host, email and API token does not resolve. *)
Definition credentials_fail : Prop :=
  is_ok (_get_env "JIRA_HOST" true None) = false
  ∨ is_ok (_get_env "JIRA_EMAIL" true None) = false
  ∨ is_ok (_get_env "JIRA_API_TOKEN" true None) = false.

(** The project key/name pair does not resolve, with the error [exc]:
    resolving the key fails, or the key is empty and resolving the
    required name fails. *)
Definition project_setting_fails (exc : exn) : Prop :=
  _get_env "JIRA_PROJECT_KEY" false None = Raise exc
  ∨ (∃ k, _get_env "JIRA_PROJECT_KEY" false None = Ok k
          ∧ truthy k = false
          ∧ _get_env "JIRA_PROJECT_NAME" true None = Raise exc).

(** The states of a process: a new one, and the state any invocation of
    the handler leaves behind. *)
Inductive reachable : state → Prop :=
| reachable_cold : reachable cold
| reachable_handler w event aws_request_id :
    reachable w → reachable (handler event aws_request_id w).2.

(** What the memo tables hold was computed from the settings. *)
Definition cache_sound (w : state) : Prop :=
  (is_Some (client_cache w) → ¬ credentials_fail)
  ∧ (is_Some (project_key_cache w) → ∀ exc, ¬ project_setting_fails exc).

(** The computation [m] keeps the memo tables sound. *)
Definition preserves {A} (m : M A) : Prop :=
  ∀ w, cache_sound w → cache_sound (m w).2.

(** The outcome of an alarm when building its fields raises [exc]. *)
Definition outcome_on_error (exc : exn) (alarm : dict) : outcome :=
  if is_unstructured alarm then Unstructured (dict_get alarm "raw_message")
  else except_clauses alarm exc.



(** The outcome [o] belongs to the record [alarm]: the unstructured
    outcome carries the record's message, an error outcome the record's
    alarm name, and only a structured record has another outcome. *)
Definition outcome_of (alarm : dict) (o : outcome) : Prop :=
  match o with
  | Unstructured v => alarm = raw_record v
  | Created _ => is_unstructured alarm = false
  | JiraFailed _ name | Unexpected _ name =>
      is_unstructured alarm = false ∧ name = dict_get alarm "AlarmName"
  end.

(** The request [c] files a ticket. *)
Definition is_create (c : call) : bool :=
  match c with CallCreateIssue _ _ => true | _ => false end.

End Vocabulary.

(* ------------------------------------------------------------------ *)
(** ** Vocabulary of the further statements *)
(* ------------------------------------------------------------------ *)

Section MoreVocabulary.

Context `{Platform}.

(** The client [get_jira_client] builds when its memo table is empty. *)
Definition credentials : result jira_client :=
  host <- _get_env "JIRA_HOST" true None ;;
  email <- _get_env "JIRA_EMAIL" true None ;;
  token <- _get_env "JIRA_API_TOKEN" true None ;;
  Ok {| server := host; basic_auth := (email, token) |}.

(** From [w] to [w']: each memo table is as it was or was empty and is
    now filled, the client's with the client of the settings; the request
    log has only grown. *)
Definition cache_step (w w' : state) : Prop :=
  (client_cache w' = client_cache w
   ∨ (client_cache w = None ∧ ∃ c, client_cache w' = Some c ∧ credentials = Ok c))
  ∧ (project_key_cache w' = project_key_cache w
     ∨ (project_key_cache w = None ∧ is_Some (project_key_cache w')))
  ∧ (∃ sent, calls w' = calls w ++ sent).

(** Every run of [m] is a [cache_step]. *)
Definition steps {A} (m : M A) : Prop := ∀ w, cache_step w (m w).2.

(** The number of create-issue requests sent so far. *)
Definition tickets (w : state) : nat := length (List.filter is_create (calls w)).

Definition is_created (o : outcome) : bool :=
  match o with Created _ => true | _ => false end.

(** [record] is a dict whose [Sns] entry is there and is not a dict. *)
Definition bad_sns (record : json) : bool :=
  match record with
  | JObj r =>
      match r !! "Sns" with
      | Some (JObj _) | None => false
      | Some _ => true
      end
  | _ => false
  end.

(** [v] is a string on which [json.loads] raises something that is not a
    [JSONDecodeError]. *)
Definition load_fails (v : json) : bool :=
  match v with
  | JStr s => match json_loads s with LoadFailed _ => true | _ => false end
  | _ => false
  end.

(** [record] stops the fan-out loop: its [Sns] entry is not a dict, or
    the message of its [Sns] entry is a string that [load_fails]. *)
Definition record_fails (record : json) : bool :=
  bad_sns record
  || match record with
     | JObj r =>
         match r !! "Sns" with
         | Some (JObj sns) => load_fails (dict_get sns "Message")
         | _ => false
         end
     | _ => false
     end.

(** The fan-out record [{"Sns": {"Message": message}}]. *)
Definition sns_record_of (message : string) : json :=
  JObj {[ "Sns" := JObj {[ "Message" := JStr message ]} ]}.

(** The project [p] has the name [name], whatever the case of the letters. *)
Definition same_name (name : string) (p : project) : bool :=
  String.eqb (PyStr.lower (proj_name p)) (PyStr.lower name).

(** No run of [m] sends a create-issue request. *)
Definition files_nothing {A} (m : M A) : Prop :=
  ∀ w, tickets (m w).2 = tickets w.

Definition is_str (v : json) : bool :=
  match v with JStr _ => true | _ => false end.

(** The alarms of [alarms] that are not the degenerate record. *)
Definition structured (alarms : list dict) : list dict :=
  List.filter (λ alarm, negb (is_unstructured alarm)) alarms.

(** The text of the [TypeError] of [str.join] for the item [v] at [i]. *)
Definition join_error (i : nat) (v : json) : exn :=
  TypeError ("sequence item " +:+ pretty i +:+ ": expected str instance, "
             +:+ type_name v +:+ " found").

End MoreVocabulary.

(* ------------------------------------------------------------------ *)
(** ** Further concrete worlds *)
(* ------------------------------------------------------------------ *)

Module Trimmed.

(** A string that does not begin with white space. *)
Definition left_trimmed (s : string) : bool :=
  match s with
  | EmptyString => true
  | String a _ => negb (PyStr.isspace a)
  end.

(** A string with no white space at either end. *)
Definition trimmed (s : string) : bool :=
  left_trimmed s && left_trimmed (String.rev s).

End Trimmed.

Module Demo2.

(** The fallback secret is named and is not in the store. *)
Definition lost_fallback : Demo.world :=
  {| Demo.env := ("JIRA_SECRET_NAME", "jira/settings") :: Demo.base_env;
     Demo.secrets := []; Demo.documents := []; Demo.refused := [] |}.

Definition with_components : Demo.world :=
  {| Demo.env := ("JIRA_COMPONENTS", " api , , billing ") :: Demo.base_env;
     Demo.secrets := []; Demo.documents := []; Demo.refused := [] |}.

(** Both forms of the default assignee are set. *)
Definition two_assignees : Demo.world :=
  {| Demo.env := ("JIRA_DEFAULT_ASSIGNEE_ACCOUNT_ID", "5b10ac8d82e05b22cc7d4ef5")
                 :: ("JIRA_DEFAULT_ASSIGNEE", "jdoe") :: Demo.base_env;
     Demo.secrets := []; Demo.documents := []; Demo.refused := [] |}.

(** An alarm whose reason is a number. *)
Definition numeric_reason : dict :=
  {[ "AlarmName" := JStr "cpu"; "NewStateReason" := JInt 5 ]}.

Definition text_messages : list string := [ "disk full"; "oops" ].

Definition text_event : dict :=
  {[ "Records" := JArr (sns_record_of <$> text_messages) ]}.

(** A reference to the key [kind] of the secret [region:secret-id]. *)
Definition kind_reference : string :=
  "{{resolve:secretsmanager:region:secret-id:SecretString:kind::}}".

(** The text [{"kind":null}]. *)
Definition null_kind_text : string :=
  "{" +:+ Demo.dq +:+ "kind" +:+ Demo.dq +:+ ":null}".

(** The text of an object whose [kind] is the empty string. *)
Definition empty_kind_text : string :=
  "{" +:+ Demo.dq +:+ "kind" +:+ Demo.dq +:+ ":" +:+ Demo.dq +:+ Demo.dq +:+ "}".

(** The text [{"JIRA_ISSUE_TYPE":"Bug"}]. *)
Definition settings_text : string :=
  "{" +:+ Demo.dq +:+ "JIRA_ISSUE_TYPE" +:+ Demo.dq +:+ ":"
  +:+ Demo.dq +:+ "Bug" +:+ Demo.dq +:+ "}".

(** The text [{"JIRA_ISSUE_TYPE":null}]. *)
Definition null_settings_text : string :=
  "{" +:+ Demo.dq +:+ "JIRA_ISSUE_TYPE" +:+ Demo.dq +:+ ":null}".

Definition settings : dict := {[ "JIRA_ISSUE_TYPE" := JStr "Bug" ]}.

(** [JIRA_ISSUE_TYPE] is a reference to a key whose value is [null]; the
    fallback secret has an entry for the setting. *)
Definition null_dereference : Demo.world :=
  {| Demo.env := [ ("JIRA_ISSUE_TYPE", kind_reference);
                   ("JIRA_SECRET_NAME", "jira/settings") ];
     Demo.secrets := [ ("region:secret-id", null_kind_text);
                       ("jira/settings", settings_text) ];
     Demo.documents := [ (null_kind_text, JObj {[ "kind" := JNull ]});
                         (settings_text, JObj settings) ];
     Demo.refused := [] |}.

(** The same, and the value of the key is the empty string. *)
Definition empty_dereference : Demo.world :=
  {| Demo.env := [ ("JIRA_ISSUE_TYPE", kind_reference);
                   ("JIRA_SECRET_NAME", "jira/settings") ];
     Demo.secrets := [ ("region:secret-id", empty_kind_text);
                       ("jira/settings", settings_text) ];
     Demo.documents := [ (empty_kind_text, JObj {[ "kind" := JStr "" ]});
                         (settings_text, JObj settings) ];
     Demo.refused := [] |}.

(** [JIRA_ISSUE_TYPE] is not set, and its entry in the fallback secret is
    [null]. *)
Definition null_entry : Demo.world :=
  {| Demo.env := [ ("JIRA_SECRET_NAME", "jira/settings") ];
     Demo.secrets := [ ("jira/settings", null_settings_text) ];
     Demo.documents := [ (null_settings_text, JObj {[ "JIRA_ISSUE_TYPE" := JNull ]}) ];
     Demo.refused := [] |}.

Definition two_projects : list project :=
  [ {| proj_name := "Billing"; proj_key := "BIL" |};
    {| proj_name := "Operations"; proj_key := "OPS" |} ].

End Demo2.

(* ------------------------------------------------------------------ *)
(** ** The comment on an existing issue *)
(* ------------------------------------------------------------------ *)

Section UpdateExistingIssue.

Context `{Platform}.

(** [_update_existing_issue]; [add_comment] is the method
    [client.add_comment] of the client it is given. *)
Definition _update_existing_issue (add_comment : string → string → result unit)
    (issue_key : string) (alarm : dict) : result dict :=
  let comment_lines :=
    [ JStr "CloudWatch alarm triggered again.";
      JStr ("Current State: "
            +:+ format_value (dict_get_or alarm "NewStateValue" (JStr "UNKNOWN")));
      JStr ("State Change Time: "
            +:+ format_value (dict_get_or alarm "StateChangeTime" (JStr "N/A"))) ] in
  let reason := dict_get alarm "NewStateReason" in
  let comment_lines :=
    if truthy reason then comment_lines ++ [JStr ""; reason] else comment_lines in
  let comment_lines :=
    comment_lines ++ [JStr ""; JStr "Alarm Payload:"; JStr (json_dumps (JObj alarm))] in
  strs <- join_items 0 comment_lines ;;
  _ <- add_comment issue_key (PyStr.join (String "010" EmptyString) strs) ;;
  Ok {[ "issue_key" := JStr issue_key; "action" := JStr "commented" ]}.

End UpdateExistingIssue.

(* ------------------------------------------------------------------ *)
(** ** The handler of [lambda/create-user/index.py] *)
(* ------------------------------------------------------------------ *)

Module CreateUser.

(** The item written to the table. *)
Record item : Type := {
  id : string;
  username : json;
  first_name : json;
  last_name : json;
  created_at : string
}.

(** What one invocation draws: the two results of [str(uuid.uuid4())],
    in the order of the calls, and the reading of the clock. *)
Record draws : Type := {
  request_uuid : string;
  item_uuid : string;
  now : string
}.

Record response : Type := {
  statusCode : nat;
  headers : gmap string string;
  body : string
}.

(** The Python runtime is that of [Platform]; the table and the two
    library functions the other handler does not use are here. *)
Class Table `{Platform} : Type := {
  (** [json.dumps(v)] *)
  dumps : json → string;
  (** [str(e)] for the [JSONDecodeError] of [json.loads(s)] *)
  loads_error : string → string;
  loads_empty_object : json_loads "{}" = Parsed (JObj ∅);
  (** [table.put_item(Item=..., ConditionExpression=...)]; the reply may
      depend on the requests sent before *)
  put_item : list item → item → result unit
}.

Section Code.

Context `{Table}.

Definition _response (status : nat) (payload : json) (extra : option (gmap string string))
    : response :=
  {| statusCode := status;
     headers := default ∅ extra ∪ {[ "Content-Type" := "application/json" ]};
     body := dumps payload |}.

(** [base64.b64decode(v).decode("utf-8")] *)
Definition decode_body (v : json) : result string :=
  match v with
  | JStr b => b64decode_utf8 b
  | _ =>
      Raise (TypeError ("argument should be a bytes-like object or ASCII string, not '"
                        +:+ type_name v +:+ "'"))
  end.

(** [json.loads(v)] *)
Definition loads (v : json) : result json :=
  match v with
  | JStr s =>
      match json_loads s with
      | Parsed parsed => Ok parsed
      | NotJson => Raise (ValueError (loads_error s))
      | LoadFailed exc => Raise exc
      end
  | _ =>
      Raise (TypeError ("the JSON object must be str, bytes or bytearray, not "
                        +:+ type_name v))
  end.

Definition _parse_payload (event : json) : result json :=
  match event with
  | JObj e =>
      if dict_has e "body" then
        let body_raw := dict_get e "body" in
        body_raw <- (if truthy (dict_get e "isBase64Encoded")
                     then decoded <- decode_body body_raw ;; Ok (JStr decoded)
                     else Ok body_raw) ;;
        loads (if truthy body_raw then body_raw else JStr "{}")
      else Ok event
  | _ => Ok (JObj ∅)
  end.

(** [f in payload] *)
Definition contains (payload : json) (f : string) : result bool :=
  match payload with
  | JObj m => Ok (dict_has m f)
  | JArr l => Ok (existsb (λ v, match v with JStr s => String.eqb s f | _ => false end) l)
  | JStr s => Ok (PyStr.contains f s)
  | v => Raise (TypeError ("argument of type '" +:+ type_name v +:+ "' is not iterable"))
  end.

(** [payload[f]] for a string [f] *)
Definition getitem (payload : json) (f : string) : result json :=
  match payload with
  | JObj m =>
      match m !! f with
      | Some v => Ok v
      | None => Raise (KeyError f)
      end
  | JArr _ => Raise (TypeError "list indices must be integers or slices, not str")
  | JStr _ => Raise (TypeError "string indices must be integers, not 'str'")
  | v => Raise (TypeError ("'" +:+ type_name v +:+ "' object is not subscriptable"))
  end.

Definition required : list string := ["username"; "first_name"; "last_name"].

(** [[f for f in fields if f not in payload]] *)
Fixpoint missing_fields (payload : json) (fields : list string) : result (list string) :=
  match fields with
  | [] => Ok []
  | f :: rest =>
      present <- contains payload f ;;
      others <- missing_fields payload rest ;;
      Ok (if present then others else f :: others)
  end.

Definition item_json (i : item) : json :=
  JObj {[ "id" := JStr (id i);
          "username" := username i;
          "first_name" := first_name i;
          "last_name" := last_name i;
          "created_at" := JStr (created_at i) ]}.

Definition error_body (text : string) : json := JObj {[ "error" := JStr text ]}.

Definition failed_to_create : exn := OtherError "Exception" "Failed to create user".

(** [aws_request_id] is the attribute of the context, when it has one;
    [requests] are the put requests sent so far, oldest first. *)
Definition handler (event : json) (aws_request_id : option string) (d : draws)
    (requests : list item) : result response * list item :=
  let request_id := default (request_uuid d) aws_request_id in
  match _parse_payload event with
  | Raise e =>
      (Ok (_response 400 (error_body ("Invalid JSON body: " +:+ exn_str e)) None), requests)
  | Ok payload =>
      match missing_fields payload required with
      | Raise e => (Raise e, requests)
      | Ok (f :: fs) =>
          (Ok (_response 400
                 (error_body ("Missing required fields: " +:+ PyStr.join ", " (f :: fs)))
                 None),
           requests)
      | Ok [] =>
          match (u <- getitem payload "username" ;;
                 f <- getitem payload "first_name" ;;
                 l <- getitem payload "last_name" ;;
                 Ok {| id := item_uuid d; username := u; first_name := f;
                       last_name := l; created_at := now d |}) with
          | Raise e => (Raise e, requests)
          | Ok new_item =>
              match put_item requests new_item with
              | Raise _ => (Raise failed_to_create, requests ++ [new_item])
              | Ok _ =>
                  (Ok (_response 201
                         (JObj {[ "message" := JStr "User created";
                                  "user" := item_json new_item ]})
                         (Some {[ "x-request-id" := request_id ]})),
                   requests ++ [new_item])
              end
          end
      end
  end.

End Code.

End CreateUser.

(** A table for examples: it refuses the user name [taken]. *)
Module DemoUsers.

Definition body_text : string :=
  "{" +:+ Demo.dq +:+ "username" +:+ Demo.dq +:+ ": " +:+ Demo.dq +:+ "ada" +:+ Demo.dq +:+ "}".

Definition complete : dict :=
  {[ "username" := JStr "ada"; "first_name" := JStr "Ada"; "last_name" := JStr "Lovelace" ]}.

Definition world : Demo.world :=
  {| Demo.env := []; Demo.secrets := [];
     Demo.documents := [ ("{}", JObj ∅);
                         (body_text, JObj {[ "username" := JStr "ada" ]});
                         ("null", JNull) ];
     Demo.refused := [] |}.

Definition put (requests : list CreateUser.item) (i : CreateUser.item) : result unit :=
  match CreateUser.username i with
  | JStr "taken" => Raise (OtherError "ClientError" "ConditionalCheckFailedException")
  | _ => Ok ()
  end.

Definition table : @CreateUser.Table (Demo.platform world) :=
  @CreateUser.Build_Table (Demo.platform world)
    Demo.show
    (λ _, "Expecting value: line 1 column 1 (char 0)")
    eq_refl
    put.

Definition drawn : CreateUser.draws :=
  {| CreateUser.request_uuid := "11111111-1111-4111-8111-111111111111";
     CreateUser.item_uuid := "22222222-2222-4222-8222-222222222222";
     CreateUser.now := "2024-01-01T00:00:00+00:00" |}.

Definition ada : CreateUser.item :=
  {| CreateUser.id := "22222222-2222-4222-8222-222222222222";
     CreateUser.username := JStr "ada";
     CreateUser.first_name := JStr "Ada";
     CreateUser.last_name := JStr "Lovelace";
     CreateUser.created_at := "2024-01-01T00:00:00+00:00" |}.

End DemoUsers.

(* ------------------------------------------------------------------ *)
(** ** Facts about the string operations *)
(* ------------------------------------------------------------------ *)

Module PyStrFacts.
Import PyStr.

#[local] Arguments String.append !_ _ / : simpl nomatch.

Lemma str_length_app (s t : string) :
  String.length (s +:+ t) = String.length s + String.length t.
Proof. induction s as [|a s IH]; simpl; [done | by rewrite IH]. Qed.

Lemma str_app_empty_r (s : string) : s +:+ EmptyString = s.
Proof. induction s as [|a s IH]; simpl; congruence. Qed.

Lemma str_app_assoc (s t u : string) : (s +:+ t) +:+ u = s +:+ t +:+ u.
Proof. induction s as [|a s IH]; simpl; congruence. Qed.

Lemma take_length (n : nat) (s : string) :
  String.length (take n s) = n `min` String.length s.
Proof.
  revert s; induction n as [|n IH]; intros [|a s]; simpl; try done.
  by rewrite IH.
Qed.

Lemma take_all (n : nat) (s : string) : String.length s ≤ n → take n s = s.
Proof.
  revert s; induction n as [|n IH]; intros [|a s]; simpl; try done; try lia.
  intros Hn. rewrite IH; [done | lia].
Qed.

Lemma take_app (n : nat) (s t : string) :
  take (String.length s + n) (s +:+ t) = s +:+ take n t.
Proof.
  induction s as [|a s IH]; simpl; [| by rewrite IH].
  destruct n, t; done.
Qed.

Lemma take_app_le (n : nat) (s t : string) :
  n ≤ String.length s → take n (s +:+ t) = take n s.
Proof.
  revert n; induction s as [|a s IH]; intros [|n] Hn; simpl in *.
  - by destruct t.
  - lia.
  - done.
  - rewrite IH; [done | lia].
Qed.

Lemma take_app_length (s t : string) : take (String.length s) (s +:+ t) = s.
Proof.
  replace (String.length s) with (String.length s + 0) by lia.
  rewrite take_app. destruct t; simpl; apply str_app_empty_r.
Qed.

Lemma drop_app (n : nat) (s t : string) :
  drop (String.length s + n) (s +:+ t) = drop n t.
Proof. induction s as [|a s IH]; simpl; [by destruct n | done]. Qed.

Lemma drop_app_length (s t : string) : drop (String.length s) (s +:+ t) = t.
Proof.
  replace (String.length s) with (String.length s + 0) by lia.
  rewrite drop_app. by destruct t.
Qed.

Lemma startswith_app (p s : string) : startswith p (p +:+ s) = true.
Proof.
  unfold startswith. induction p as [|a p IH]; simpl; [by destruct s |].
  destruct (ascii_dec a a); [done | congruence].
Qed.

Lemma startswith_take (p s : string) (n : nat) :
  String.length p ≤ n → startswith p s = true → startswith p (take n s) = true.
Proof.
  unfold startswith. revert s n.
  induction p as [|a p IH]; intros s n Hn Hp; simpl in *.
  - by destruct (take n s).
  - destruct s as [|b s]; [done |].
    destruct n as [|n]; [lia |]. simpl in *.
    destruct (ascii_dec a b); [| done]. apply IH; [lia | done].
Qed.

Lemma endswith_app (s p : string) : endswith p (s +:+ p) = true.
Proof.
  unfold endswith. rewrite str_length_app.
  replace (String.length s + String.length p - String.length p)
    with (String.length s) by lia.
  rewrite drop_app_length, String.eqb_refl.
  apply andb_true_intro; split; [apply Nat.leb_le; lia | done].
Qed.

(** Cutting the delimiters [a] and [b] off [a + body + b]. *)
Lemma slice_wrapped (a body b : string) :
  slice (String.length a) (String.length b) (a +:+ body +:+ b) = body.
Proof.
  unfold slice. rewrite drop_app_length, !str_length_app.
  replace (String.length a + (String.length body + String.length b)
           - String.length b - String.length a)
    with (String.length body) by lia.
  apply take_app_length.
Qed.

Lemma replace_has_char (a b : ascii) (s : string) :
  a ≠ b → has_char a (replace a b s) = false.
Proof.
  intros Hab. induction s as [|x s IH]; simpl; [done |].
  rewrite IH, orb_false_r.
  destruct (Ascii.eqb_spec x a) as [->|Hx].
  - apply Ascii.eqb_neq. congruence.
  - by apply Ascii.eqb_neq.
Qed.

Lemma prefix_inv (a b : ascii) (p s : string) :
  String.prefix (String a p) (String b s) = true → a = b ∧ String.prefix p s = true.
Proof. simpl. by destruct (ascii_dec a b). Qed.

(** A pattern without the character [c] that starts [t + c + u] starts [t]. *)
Lemma prefix_before_char (c : ascii) (q t u : string) :
  has_char c q = false →
  String.prefix q (t +:+ String c u) = true → String.prefix q t = true.
Proof.
  revert t; induction q as [|x q IH]; intros t Hq Hp.
  - by destruct t.
  - simpl in Hq. apply orb_false_elim in Hq as [Hx Hq].
    destruct t as [|b t].
    + apply prefix_inv in Hp as [-> _]. by rewrite Ascii.eqb_refl in Hx.
    + change (String b t +:+ String c u) with (String b (t +:+ String c u)) in Hp.
      apply prefix_inv in Hp as [-> Hp]. simpl.
      destruct (ascii_dec b b); [| done]. by apply IH.
Qed.

Lemma find_cons (p : string) (a : ascii) (s : string) :
  find p (String a s)
  = if String.prefix p (String a s) then Some 0 else S <$> find p s.
Proof. unfold find. simpl. by destruct (String.index 0 p s). Qed.

(** The first occurrence of a pattern [c + q], where [c] does not occur
    in [q], in [s + (c + q) + u], when the pattern does not occur in [s]. *)
Lemma find_first (c : ascii) (q s u : string) :
  has_char c q = false →
  contains (String c q) s = false →
  find (String c q) (s +:+ String c q +:+ u) = Some (String.length s).
Proof.
  intros Hq. induction s as [|a s IH]; intros Hs.
  - change ("" +:+ String c q +:+ u) with (String c (q +:+ u)).
    rewrite find_cons.
    pose proof (startswith_app (String c q) u) as Hp. unfold startswith in Hp.
    change (String c q +:+ u) with (String c (q +:+ u)) in Hp. by rewrite Hp.
  - unfold contains in Hs. rewrite find_cons in Hs.
    destruct (String.prefix (String c q) (String a s)) eqn:Hpre; [done |].
    assert (contains (String c q) s = false) as Hs'.
    { unfold contains. destruct (find (String c q) s); [done | done]. }
    change (String a s +:+ String c q +:+ u)
      with (String a (s +:+ String c q +:+ u)).
    rewrite find_cons.
    destruct (String.prefix (String c q) (String a (s +:+ String c q +:+ u)))
      eqn:Hfull.
    + exfalso. apply prefix_inv in Hfull as [-> Hfull].
      change (String a q +:+ u) with (String a (q +:+ u)) in Hfull.
      apply prefix_before_char in Hfull; [| done].
      simpl in Hpre. destruct (ascii_dec a a); congruence.
    + by rewrite (IH Hs').
Qed.

Lemma partition_head_stop (c : ascii) (k rest : string) :
  has_char c k = false → partition_head c (k +:+ String c rest) = k.
Proof.
  induction k as [|a k IH]; simpl; intros Hk.
  - by rewrite Ascii.eqb_refl.
  - apply orb_false_elim in Hk as [Ha Hk]. by rewrite Ha, IH.
Qed.

End PyStrFacts.

(* ------------------------------------------------------------------ *)
(** ** Properties of the configuration resolver *)
(* ------------------------------------------------------------------ *)

Section Resolver.

Context `{Platform}.

Import PyStr PyStrFacts.

#[local] Arguments String.append !_ _ / : simpl nomatch.

(** A value that lacks one of the two delimiters is a literal. *)
Lemma resolve_literal (value : string) :
  startswith reference_prefix value = false ∨ endswith reference_suffix value = false →
  _resolve_secret_reference value = Ok (JStr value).
Proof.
  intros Hd. unfold _resolve_secret_reference.
  destruct Hd as [-> | ->]; simpl; by rewrite ?orb_true_r.
Qed.

(** What is left of the function once both delimiters are there. *)
Lemma resolve_wrapped (rest : string) :
  let value := reference_prefix +:+ rest +:+ reference_suffix in
  _resolve_secret_reference value =
    if negb (contains secret_marker rest)
    then Raise (ValueError ("Secrets Manager reference missing SecretString directive: " +:+ value))
    else
      match split_once secret_marker rest with
      | [secret_id; json_selector] =>
          secret_string <- _fetch_secret_string (strip secret_id) ;;
          match selector_key json_selector with
          | None => Ok (JStr secret_string)
          | Some key =>
              match json_loads secret_string with
              | NotJson => Raise (ValueError ("Secret '" +:+ strip secret_id +:+ "' is not JSON; cannot extract key '" +:+ key +:+ "'"))
              | LoadFailed exc => Raise exc
              | Parsed secret_json => secret_lookup (strip secret_id) key secret_json
              end
          end
      | _ => Raise (ValueError "not enough values to unpack")
      end.
Proof.
  intros value. unfold _resolve_secret_reference.
  assert (String.eqb value "" = false) as -> by done.
  assert (startswith reference_prefix value = true) as -> by apply startswith_app.
  assert (endswith reference_suffix value = true) as ->.
  { unfold value. rewrite <- str_app_assoc. apply endswith_app. }
  assert (slice 2 2 value = "resolve:secretsmanager:" +:+ rest) as ->.
  { change value with ("{{" +:+ ("resolve:secretsmanager:" +:+ rest) +:+ "}}").
    apply (slice_wrapped "{{" _ "}}"). }
  assert (split_max ":" 2 ("resolve:secretsmanager:" +:+ rest)
          = ["resolve"; "secretsmanager"; rest]) as ->.
  { simpl. by destruct rest. }
  reflexivity.
Qed.

Lemma split_once_marker (sid sel : string) :
  contains secret_marker sid = false →
  contains secret_marker (sid +:+ secret_marker +:+ sel) = true
  ∧ split_once secret_marker (sid +:+ secret_marker +:+ sel) = [sid; sel].
Proof.
  intros Hsid.
  pose proof (find_first ":" "SecretString" sid sel eq_refl Hsid) as Hfind.
  change (String ":" "SecretString") with secret_marker in Hfind.
  unfold contains, split_once. rewrite Hfind. split; [done |].
  rewrite take_app_length.
  rewrite <- str_app_assoc, <- str_length_app, drop_app_length. done.
Qed.

(** Resolution of [{{resolve:secretsmanager:<sid>:SecretString<sel>}}]. *)
Lemma resolve_reference (sid sel : string) :
  contains secret_marker sid = false →
  _resolve_secret_reference
    (reference_prefix +:+ sid +:+ secret_marker +:+ sel +:+ reference_suffix)
  = (secret_string <- _fetch_secret_string (strip sid) ;;
     match selector_key sel with
     | None => Ok (JStr secret_string)
     | Some key =>
         match json_loads secret_string with
         | NotJson => Raise (ValueError ("Secret '" +:+ strip sid +:+ "' is not JSON; cannot extract key '" +:+ key +:+ "'"))
         | LoadFailed exc => Raise exc
         | Parsed secret_json => secret_lookup (strip sid) key secret_json
         end
     end).
Proof.
  intros Hsid.
  destruct (split_once_marker sid sel Hsid) as [Hin Hsplit].
  pose proof (resolve_wrapped (sid +:+ secret_marker +:+ sel)) as Hw.
  cbv zeta in Hw. rewrite !str_app_assoc in Hw. rewrite Hw, Hin, Hsplit. done.
Qed.

Lemma selector_key_keyed (key rest : string) :
  key ≠ "" → has_char ":" key = false →
  selector_key (":" +:+ key +:+ String ":" rest) = Some key.
Proof.
  intros Hne Hk. unfold selector_key. simpl.
  assert (startswith "" (key +:+ String ":" rest) = true) as ->.
  { unfold startswith. simpl. by destruct (key +:+ String ":" rest). }
  rewrite partition_head_stop by done.
  by apply String.eqb_neq in Hne as ->.
Qed.

End Resolver.

Section ResolverClaims.

Context `{Platform}.

Import PyStr PyStrFacts.

#[local] Arguments String.append !_ _ / : simpl nomatch.

Lemma secret_lookup_not_dict (secret_id key : string) (j : json) :
  is_dict j = false → is_ok (secret_lookup secret_id key j) = false.
Proof.
  destruct j; simpl; try done.
  - by destruct (contains key s).
  - by destruct (existsb _ l).
Qed.

(** C5: a well-formed reference
    [{{resolve:secretsmanager:<sid>:SecretString...}}] whose secret can be
    fetched resolves, without a JSON key, to the secret's raw string; with
    the key [key] it parses the secret string as JSON and returns the value
    at [key]; it raises a [ValueError] when the string is not JSON, a
    [KeyError] when the object has no such key, and also fails when the
    JSON is not an object. *)
Theorem resolve_secret_reference_spec (sid key secret : string) :
  contains secret_marker sid = false →
  key ≠ "" → has_char ":" key = false →
  _fetch_secret_string (strip sid) = Ok secret →
  let bare := reference_prefix +:+ sid +:+ secret_marker +:+ reference_suffix in
  let unkeyed := reference_prefix +:+ sid +:+ secret_marker +:+ "::" +:+ reference_suffix in
  let keyed :=
    reference_prefix +:+ sid +:+ secret_marker +:+ ":" +:+ key +:+ "::" +:+ reference_suffix in
  _resolve_secret_reference bare = Ok (JStr secret)
  ∧ _resolve_secret_reference unkeyed = Ok (JStr secret)
  ∧ (json_loads secret = NotJson →
     _resolve_secret_reference keyed
     = Raise (ValueError ("Secret '" +:+ strip sid +:+ "' is not JSON; cannot extract key '"
                          +:+ key +:+ "'")))
  ∧ (∀ m v, json_loads secret = Parsed (JObj m) → m !! key = Some v →
     _resolve_secret_reference keyed = Ok v)
  ∧ (∀ m, json_loads secret = Parsed (JObj m) → m !! key = None →
     _resolve_secret_reference keyed
     = Raise (KeyError ("Key '" +:+ key +:+ "' not found in secret '" +:+ strip sid +:+ "'")))
  ∧ (∀ j, json_loads secret = Parsed j → is_dict j = false →
     is_ok (_resolve_secret_reference keyed) = false).
Proof.
  intros Hsid Hne Hkey Hfetch bare unkeyed keyed.
  assert (_resolve_secret_reference bare = Ok (JStr secret)) as Hbare.
  { change bare
      with (reference_prefix +:+ sid +:+ secret_marker +:+ "" +:+ reference_suffix).
    rewrite resolve_reference by done. by rewrite Hfetch. }
  assert (_resolve_secret_reference unkeyed = Ok (JStr secret)) as Hunkeyed.
  { unfold unkeyed. rewrite resolve_reference by done. by rewrite Hfetch. }
  assert (_resolve_secret_reference keyed
          = match json_loads secret with
            | NotJson => Raise (ValueError ("Secret '" +:+ strip sid
                         +:+ "' is not JSON; cannot extract key '" +:+ key +:+ "'"))
            | LoadFailed exc => Raise exc
            | Parsed secret_json => secret_lookup (strip sid) key secret_json
            end) as Hkeyed.
  { replace keyed
      with (reference_prefix +:+ sid +:+ secret_marker
            +:+ (":" +:+ key +:+ String ":" ":") +:+ reference_suffix)
      by (by rewrite !str_app_assoc).
    rewrite resolve_reference by done.
    rewrite Hfetch, selector_key_keyed by done. done. }
  repeat split; try done.
  - intros Hj. by rewrite Hkeyed, Hj.
  - intros m v Hj Hv. rewrite Hkeyed, Hj. simpl. by rewrite Hv.
  - intros m Hj Hv. rewrite Hkeyed, Hj. simpl. by rewrite Hv.
  - intros j Hj Hd. rewrite Hkeyed, Hj. by apply secret_lookup_not_dict.
Qed.

(** C9, as the code has it: a value that lacks the opening
    [{{resolve:secretsmanager:] or the closing [}}] is a literal and is
    returned unchanged; a value with both delimiters and no [:SecretString]
    marker between them raises a [ValueError] that quotes the value. *)
Theorem malformed_reference_spec :
  (∀ value,
     startswith reference_prefix value = false ∨ endswith reference_suffix value = false →
     _resolve_secret_reference value = Ok (JStr value))
  ∧ (∀ rest,
       contains secret_marker rest = false →
       _resolve_secret_reference (reference_prefix +:+ rest +:+ reference_suffix)
       = Raise (ValueError ("Secrets Manager reference missing SecretString directive: "
                            +:+ reference_prefix +:+ rest +:+ reference_suffix))).
Proof.
  split.
  - apply resolve_literal.
  - intros rest Hrest. pose proof (resolve_wrapped rest) as Hw. cbv zeta in Hw.
    rewrite Hw, Hrest. done.
Qed.

End ResolverClaims.

(** The reference [{{resolve:secretsmanager:region:secret-id:SecretString:apiKey::}}]
    against the secret [{"apiKey":"tok123"}]. *)
Lemma resolve_secret_reference_spec_witness :
  @_resolve_secret_reference (Demo.platform Demo.with_secret) Demo.api_key_reference
  = Ok (JStr "tok123").
Proof.
  pose proof (@resolve_secret_reference_spec (Demo.platform Demo.with_secret)
                "region:secret-id" "apiKey" Demo.api_key_text
                eq_refl ltac:(discriminate) eq_refl eq_refl) as Hspec.
  destruct Hspec as (_ & _ & _ & Hkey & _).
  exact (Hkey {[ "apiKey" := JStr "tok123" ]} (JStr "tok123") eq_refl eq_refl).
Defined.

(** The same reference without the key gives the raw secret string. *)
Lemma resolve_without_key :
  @_resolve_secret_reference (Demo.platform Demo.with_secret)
    "{{resolve:secretsmanager:region:secret-id:SecretString::}}"
  = Ok (JStr Demo.api_key_text).
Proof. reflexivity. Qed.

(** C9 as stated fails: a reference whose closing delimiter is wrong is
    passed through as the setting's value, no error is raised. *)
Lemma malformed_reference_passes_through :
  PyStr.endswith reference_suffix Demo.broken_reference = false
  ∧ @_resolve_secret_reference (Demo.platform Demo.with_secret) Demo.broken_reference
    = Ok (JStr Demo.broken_reference).
Proof. split; reflexivity. Qed.

Section GetEnvClaims.

Context `{Platform}.

Import PyStr PyStrFacts.

(** A required setting never resolves to an empty value. *)
Lemma get_env_required_truthy (name : string) (default : option string) (v : json) :
  _get_env name true default = Ok v → truthy v = true.
Proof.
  unfold _get_env.
  destruct (match from_option JStr JNull (getenv name) with
            | JStr s => _ | _ => _ end) as [v1|e1]; simpl; [| done].
  destruct (if negb (truthy v1) then _ else _) as [v2|e2]; simpl; [| done].
  destruct (negb (truthy match v2 with JNull => _ | _ => v2 end)) eqn:Ht; [done |].
  intros [= <-]. by apply negb_false_iff in Ht.
Qed.

(** Once the environment offers nothing, the rest of [_get_env]. *)
Lemma get_env_offers_nothing (name : string) (required : bool) (default : option string)
    (v : json) :
  offers_nothing name v →
  _get_env name required default
  = (value <- (secret_payload <- _get_secret_payload ;;
               Ok (match secret_payload !! name with
                   | Some entry => entry
                   | None => v
                   end)) ;;
     let value := match value with
                  | JNull => from_option JStr JNull default
                  | _ => value
                  end in
     if required && negb (truthy value) then Raise (required_error name) else Ok value).
Proof.
  unfold _get_env.
  intros [[-> ->] | [[-> ->] | (s & -> & Hs & Hres & Hnull & Hempty)]]; simpl; try done.
  apply String.eqb_neq in Hs as ->. simpl. rewrite Hres. simpl.
  assert (match v with JNull => JStr s | _ => v end = v) as -> by by destruct v.
  by rewrite Hempty.
Qed.

(** C6, as the code has it.  For the setting [name]:
    - a variable that is set and not empty is dereferenced, and a failing
      dereference fails the resolution;
    - a dereferenced value that is not empty is the result;
    - a dereference to [None] keeps the raw text of the variable, which is
      the result: the secret payload is not read and no default is applied;
    - otherwise the environment offers nothing (the variable is unset, set
      to the empty string, or dereferences to an empty value that is not
      [None]) and the secret payload is read; a failure to read it fails the
      resolution;
    - an entry of the payload for [name] that is not [None] is the value,
      empty or not;
    - without an entry, an empty value that is not [None] is kept, whatever
      the default;
    - the default is applied exactly when the value is then [None]: the
      entry is [None], or there is no entry and the variable is unset;
    - with [required], an empty final value raises the [EnvironmentError],
      and a returned value is never empty. *)
Theorem get_env_order (name : string) (required : bool) (default : option string) :
  (∀ s e, getenv name = Some s → s ≠ "" →
     _resolve_secret_reference s = Raise e →
     _get_env name required default = Raise e)
  ∧ (∀ s v, getenv name = Some s → s ≠ "" →
       _resolve_secret_reference s = Ok v → truthy v = true →
       _get_env name required default = Ok v)
  ∧ (∀ s, getenv name = Some s → s ≠ "" →
       _resolve_secret_reference s = Ok JNull →
       _get_env name required default = Ok (JStr s))
  ∧ (∀ v e, offers_nothing name v →
       _get_secret_payload = Raise e →
       _get_env name required default = Raise e)
  ∧ (∀ v payload entry, offers_nothing name v →
       _get_secret_payload = Ok payload → payload !! name = Some entry → entry ≠ JNull →
       _get_env name required default
       = if required && negb (truthy entry) then Raise (required_error name) else Ok entry)
  ∧ (∀ v payload, offers_nothing name v →
       _get_secret_payload = Ok payload → payload !! name = None → v ≠ JNull →
       _get_env name required default
       = if required then Raise (required_error name) else Ok v)
  ∧ (∀ v payload, offers_nothing name v →
       _get_secret_payload = Ok payload →
       payload !! name = Some JNull ∨ (payload !! name = None ∧ v = JNull) →
       _get_env name required default
       = match default with
         | Some d =>
             if required && String.eqb d "" then Raise (required_error name) else Ok (JStr d)
         | None => if required then Raise (required_error name) else Ok JNull
         end)
  ∧ (∀ v, _get_env name true default = Ok v → truthy v = true).
Proof.
  split.
  { intros s e Henv Hs Hres. unfold _get_env. rewrite Henv. simpl.
    apply String.eqb_neq in Hs as ->. simpl. by rewrite Hres. }
  split.
  { intros s v Henv Hs Hres Hv. unfold _get_env. rewrite Henv. simpl.
    apply String.eqb_neq in Hs as ->. simpl. rewrite Hres. simpl.
    assert (match v with JNull => JStr s | _ => v end = v) as -> by by destruct v.
    rewrite Hv. simpl.
    assert (match v with JNull => from_option JStr JNull default | _ => v end = v)
      as -> by by destruct v.
    rewrite Hv. simpl. by rewrite andb_false_r. }
  split.
  { intros s Henv Hs Hres. apply String.eqb_neq in Hs.
    unfold _get_env. rewrite Henv. simpl. rewrite Hs. simpl. rewrite Hres. simpl.
    rewrite Hs. simpl. rewrite Hs. simpl. by rewrite andb_false_r. }
  split.
  { intros v e Hv Hpay. rewrite (get_env_offers_nothing _ _ _ v Hv), Hpay. done. }
  split.
  { intros v payload entry Hv Hpay Hlook Hentry.
    rewrite (get_env_offers_nothing _ _ _ v Hv), Hpay. simpl. rewrite Hlook.
    by destruct entry. }
  split.
  { intros v payload Hv Hpay Hlook Hnull.
    rewrite (get_env_offers_nothing _ _ _ v Hv), Hpay. simpl. rewrite Hlook.
    assert (truthy v = false) as Hempty.
    { destruct Hv as [[_ ->] | [[_ ->] | (s & _ & _ & _ & _ & Hempty)]]; done. }
    assert (match v with JNull => from_option JStr JNull default | _ => v end = v)
      as -> by by destruct v.
    rewrite Hempty. simpl. by rewrite andb_true_r. }
  split.
  { intros v payload Hv Hpay Hlook.
    rewrite (get_env_offers_nothing _ _ _ v Hv), Hpay. simpl.
    assert (match payload !! name with Some entry => entry | None => v end = JNull) as ->.
    { destruct Hlook as [-> | [-> ->]]; done. }
    destruct default as [d|]; simpl.
    - by destruct (String.eqb d "").
    - by rewrite andb_true_r. }
  apply get_env_required_truthy.
Qed.

End GetEnvClaims.

(** C6 as stated fails: [JIRA_ISSUE_TYPE] is set to the empty string and
    the secret payload has no entry for it, yet the default [Task] is not
    applied. *)
Lemma get_env_empty_skips_default :
  @_get_env (Demo.platform Demo.empty_issue_type) "JIRA_ISSUE_TYPE" false (Some "Task")
  = Ok (JStr "").
Proof. reflexivity. Qed.

(** A reference that dereferences to the empty string: the entry [Bug] of
    the fallback secret is the value. *)
Lemma get_env_order_witness :
  @_get_env (Demo.platform Demo2.empty_dereference) "JIRA_ISSUE_TYPE" false (Some "Task")
  = Ok (JStr "Bug").
Proof.
  pose proof (@get_env_order (Demo.platform Demo2.empty_dereference)
                "JIRA_ISSUE_TYPE" false (Some "Task")) as (_ & _ & _ & _ & Hentry & _).
  apply (Hentry (JStr "") Demo2.settings (JStr "Bug")).
  - right; right. exists Demo2.kind_reference.
    split; [reflexivity |]. split; [discriminate |].
    split; [by vm_compute |]. split; [discriminate | reflexivity].
  - by vm_compute.
  - reflexivity.
  - discriminate.
Defined.

(** A reference that dereferences to [None]: the raw text of the variable
    is the value, and the entry [Bug] of the fallback secret is not used. *)
Lemma get_env_null_dereference :
  @_get_env (Demo.platform Demo2.null_dereference) "JIRA_ISSUE_TYPE" false (Some "Task")
  = Ok (JStr Demo2.kind_reference).
Proof. by vm_compute. Qed.

(** An entry of the fallback secret that is [None]: the default is the
    value. *)
Lemma get_env_null_entry :
  @_get_env (Demo.platform Demo2.null_entry) "JIRA_ISSUE_TYPE" false (Some "Task")
  = Ok (JStr "Task").
Proof. by vm_compute. Qed.

(* ------------------------------------------------------------------ *)
(** ** Properties of the ticket field builder *)
(* ------------------------------------------------------------------ *)

Section BuilderClaims.

Context `{Platform}.

Import PyStr PyStrFacts.

#[local] Arguments String.append !_ _ / : simpl nomatch.

Lemma dict_get_or_Some (d : dict) (k : string) (fallback v : json) :
  d !! k = Some v → dict_get_or d k fallback = v.
Proof. unfold dict_get_or. by intros ->. Qed.

Lemma dict_get_or_None (d : dict) (k : string) (fallback : json) :
  d !! k = None → dict_get_or d k fallback = fallback.
Proof. unfold dict_get_or. by intros ->. Qed.

(** The text of the summary before it is cut. *)
Lemma build_summary_take (alarm : dict) :
  _build_summary alarm
  = take 255 ("[CloudWatch] "
              +:+ format_value (dict_get_or alarm "AlarmName" (JStr "Unknown Alarm"))
              +:+ " is "
              +:+ format_value (dict_get_or alarm "NewStateValue" (JStr "UNKNOWN"))).
Proof. reflexivity. Qed.

Lemma build_summary_length (alarm : dict) : String.length (_build_summary alarm) ≤ 255.
Proof. rewrite build_summary_take, take_length. lia. Qed.

Lemma build_summary_prefix (alarm : dict) :
  startswith "[CloudWatch] " (_build_summary alarm) = true.
Proof.
  rewrite build_summary_take. apply startswith_take; [simpl; lia |].
  apply startswith_app.
Qed.

(** C4: the summary is [[CloudWatch] <AlarmName> is <NewStateValue>] cut to
    255 characters after formatting: it is never longer than 255
    characters and always starts with the prefix; a missing name reads
    [Unknown Alarm] and a missing state [UNKNOWN]; a text of at most 255
    characters is kept whole; [CPUHigh] in state [ALARM] gives
    [[CloudWatch] CPUHigh is ALARM]; a name of 300 characters gives exactly
    255 characters, the prefix and the first 242 characters of the name. *)
Theorem build_summary_spec :
  (∀ alarm,
     String.length (_build_summary alarm) ≤ 255
     ∧ startswith "[CloudWatch] " (_build_summary alarm) = true
     ∧ _build_summary alarm
       = take 255 ("[CloudWatch] "
                   +:+ format_value (dict_get_or alarm "AlarmName" (JStr "Unknown Alarm"))
                   +:+ " is "
                   +:+ format_value (dict_get_or alarm "NewStateValue" (JStr "UNKNOWN"))))
  ∧ (∀ alarm name state,
       alarm !! "AlarmName" = Some (JStr name) →
       alarm !! "NewStateValue" = Some (JStr state) →
       _build_summary alarm = take 255 ("[CloudWatch] " +:+ name +:+ " is " +:+ state)
       ∧ (String.length name + String.length state ≤ 238 →
          _build_summary alarm = "[CloudWatch] " +:+ name +:+ " is " +:+ state))
  ∧ (∀ alarm state,
       alarm !! "AlarmName" = None →
       alarm !! "NewStateValue" = Some (JStr state) →
       _build_summary alarm = take 255 ("[CloudWatch] Unknown Alarm is " +:+ state))
  ∧ (∀ alarm name,
       alarm !! "AlarmName" = Some (JStr name) →
       alarm !! "NewStateValue" = None →
       _build_summary alarm = take 255 ("[CloudWatch] " +:+ name +:+ " is UNKNOWN"))
  ∧ (∀ alarm,
       alarm !! "AlarmName" = None → alarm !! "NewStateValue" = None →
       _build_summary alarm = "[CloudWatch] Unknown Alarm is UNKNOWN")
  ∧ _build_summary {[ "AlarmName" := JStr "CPUHigh"; "NewStateValue" := JStr "ALARM" ]}
    = "[CloudWatch] CPUHigh is ALARM"
  ∧ (∀ alarm name,
       alarm !! "AlarmName" = Some (JStr name) → String.length name = 300 →
       String.length (_build_summary alarm) = 255
       ∧ _build_summary alarm = "[CloudWatch] " +:+ take 242 name).
Proof.
  split.
  { intros alarm. split; [apply build_summary_length |].
    split; [apply build_summary_prefix | apply build_summary_take]. }
  split.
  { intros alarm name state Hn Hs. rewrite build_summary_take.
    rewrite (dict_get_or_Some _ _ _ _ Hn), (dict_get_or_Some _ _ _ _ Hs).
    change (format_value (JStr name)) with name.
    change (format_value (JStr state)) with state.
    split; [done |]. intros Hlen. apply take_all.
    rewrite !str_length_app. simpl. lia. }
  split.
  { intros alarm state Hn Hs. rewrite build_summary_take.
    by rewrite (dict_get_or_None _ _ _ Hn), (dict_get_or_Some _ _ _ _ Hs). }
  split.
  { intros alarm name Hn Hs. rewrite build_summary_take.
    by rewrite (dict_get_or_Some _ _ _ _ Hn), (dict_get_or_None _ _ _ Hs). }
  split.
  { intros alarm Hn Hs. rewrite build_summary_take.
    by rewrite (dict_get_or_None _ _ _ Hn), (dict_get_or_None _ _ _ Hs). }
  split; [by vm_compute |].
  intros alarm name Hn Hlen.
  assert (_build_summary alarm = "[CloudWatch] " +:+ take 242 name) as Hcut.
  { rewrite build_summary_take, (dict_get_or_Some _ _ _ _ Hn).
    change (format_value (JStr name)) with name.
    change 255 with (String.length "[CloudWatch] " + 242).
    rewrite take_app. f_equal. apply take_app_le. lia. }
  split; [| done].
  rewrite Hcut, str_length_app, take_length, Hlen. simpl. lia.
Qed.

End BuilderClaims.

Section LabelFacts.

Context `{Platform}.

Import PyStr PyStrFacts.

(** No label holds a space. *)
Lemma label_tokens_no_space (raw label : string) :
  label ∈ label_tokens raw → has_char " " label = false.
Proof.
  unfold label_tokens. intros Hin.
  apply list_elem_of_fmap in Hin as (part & -> & _).
  by apply replace_has_char.
Qed.

End LabelFacts.

(** C8 fails on the code: the labels [Prod Outage, SEV1] keep their case,
    only the space becomes a hyphen. *)
Theorem alarm_label_keeps_case :
  @get_alarm_label (Demo.platform Demo.with_labels) = Ok ["Prod-Outage"; "SEV1"].
Proof. reflexivity. Qed.

(* ------------------------------------------------------------------ *)
(** ** Properties of the event normaliser *)
(* ------------------------------------------------------------------ *)

Section NormaliserClaims.

Context `{Platform}.

Import PyStr PyStrFacts.

Lemma maybe_json_ok (v : json) : is_ok (_maybe_json v) = negb (load_fails v).
Proof. destruct v; simpl; try done. by destruct (json_loads s). Qed.

Lemma maybe_json_raise (v : json) (exc : exn) :
  _maybe_json v = Raise exc → ∃ s, v = JStr s ∧ json_loads s = LoadFailed exc.
Proof.
  destruct v; simpl; try done.
  destruct (json_loads s) eqn:Hs; try done. intros [= <-]. eauto.
Qed.

Lemma load_fails_empty (v : json) : truthy v = false → load_fails v = false.
Proof.
  destruct v; simpl; try done.
  intros Hs. apply negb_false_iff, String.eqb_eq in Hs as ->.
  by rewrite json_loads_empty.
Qed.


Lemma sns_payloads_acc (records : list json) (payloads : list dict) :
  sns_payloads records payloads
  = (out <- sns_payloads records [] ;; Ok (payloads ++ out)).
Proof.
  revert payloads. induction records as [|record rest IH]; intros payloads; simpl.
  - by rewrite app_nil_r.
  - destruct (sns_message record) as [message|e]; simpl; [| done].
    destruct (negb (truthy message)); [apply IH |].
    destruct (_maybe_json message) as [candidate|e]; simpl; [| done].
    destruct candidate;
      rewrite (IH (payloads ++ _)), (IH [_]);
      destruct (sns_payloads rest []); simpl; by rewrite <- ?app_assoc.
Qed.

Lemma sns_payloads_app (l1 l2 : list json) :
  sns_payloads (l1 ++ l2) []
  = (p1 <- sns_payloads l1 [] ;; p2 <- sns_payloads l2 [] ;; Ok (p1 ++ p2)).
Proof.
  assert (∀ payloads,
            sns_payloads (l1 ++ l2) payloads
            = (p1 <- sns_payloads l1 payloads ;; sns_payloads l2 p1)) as Hgen.
  { induction l1 as [|record rest IH]; intros payloads; simpl; [done |].
    destruct (sns_message record) as [message|e]; simpl; [| done].
    destruct (negb (truthy message)); [apply IH |].
    destruct (_maybe_json message) as [candidate|e]; simpl; [| done].
    destruct candidate; apply IH. }
  rewrite Hgen. destruct (sns_payloads l1 []) as [p1|e]; simpl; [| done].
  apply sns_payloads_acc.
Qed.







(** The fan-out loop ends exactly when no record stops it. *)
Lemma sns_payloads_ok (records : list json) (payloads : list dict) :
  is_ok (sns_payloads records payloads) = negb (existsb record_fails records).
Proof.
  revert payloads. induction records as [|record rest IH]; intros payloads; simpl; [done |].
  unfold record_fails at 1, bad_sns, sns_message, dict_get_or.
  destruct record as [| | | | | |r]; simpl; try apply IH.
  destruct (r !! "Sns") as [[| | | | | |sns]|]; simpl; try done.
  - destruct (truthy (dict_get sns "Message")) eqn:Hm; simpl.
    + pose proof (maybe_json_ok (dict_get sns "Message")) as Hok.
      destruct (_maybe_json (dict_get sns "Message")) as [candidate|e]; simpl in *.
      * symmetry in Hok. apply negb_true_iff in Hok. rewrite Hok. simpl. destruct candidate; apply IH.
      * symmetry in Hok. apply negb_false_iff in Hok. by rewrite Hok.
    + rewrite load_fails_empty by done. apply IH.
  - unfold dict_get. rewrite lookup_empty. simpl. apply IH.
Qed.



Lemma extract_records (e : dict) (records : list json) :
  e !! "Records" = Some (JArr records) →
  _extract_alarm_payloads (JObj e) = sns_payloads records [].
Proof. intros He. unfold _extract_alarm_payloads. simpl. by rewrite He. Qed.


(** C10: a fan-out record whose message string parses as JSON to
    something that is not an object contributes the record
    [{"raw_message": <the message string>}], at its place among the
    records of the envelope. *)
Theorem sns_message_not_object (e : dict) (before after : list json)
    (r sns : dict) (message : string) (parsed : json) :
  e !! "Records" = Some (JArr (before ++ JObj r :: after)) →
  r !! "Sns" = Some (JObj sns) →
  sns !! "Message" = Some (JStr message) →
  json_loads message = Parsed parsed →
  is_dict parsed = false →
  sns_payloads [JObj r] [] = Ok [raw_record (JStr message)]
  ∧ _extract_alarm_payloads (JObj e)
    = (p1 <- sns_payloads before [] ;;
       p2 <- sns_payloads after [] ;;
       Ok (p1 ++ raw_record (JStr message) :: p2)).
Proof.
  intros He Hr Hsns Hparse Hnot.
  assert (message ≠ "") as Hne.
  { intros ->. by rewrite json_loads_empty in Hparse. }
  assert (sns_payloads [JObj r] [] = Ok [raw_record (JStr message)]) as Hone.
  { simpl. unfold dict_get_or, dict_get. rewrite Hr. simpl. rewrite Hsns. simpl.
    apply String.eqb_neq in Hne as ->. simpl. rewrite Hparse. simpl.
    by destruct parsed. }
  split; [done |].
  rewrite (extract_records e _ He).
  rewrite sns_payloads_app.
  change (JObj r :: after) with ([JObj r] ++ after).
  rewrite sns_payloads_app, Hone. simpl.
  destruct (sns_payloads before []); simpl; [| done].
  by destruct (sns_payloads after []).
Qed.

End NormaliserClaims.


(** The same string as the second item of a list, after an alarm: the
    whole list is lost. *)
Lemma list_item_decode_error :
  @_extract_alarm_payloads (Demo.platform Demo.refusing)
    (JArr [ JObj (Demo.alarm "a"); JStr Demo.long_number ])
  = Raise (Demo.digit_limit_error 4400).
Proof. by vm_compute. Qed.

(* ------------------------------------------------------------------ *)
(** ** Properties of the filing loop and of the handler *)
(* ------------------------------------------------------------------ *)

Section OrchestratorClaims.

Context `{Platform}.

Lemma is_unstructured_raw (v : json) : is_unstructured (raw_record v) = true.
Proof.
  unfold is_unstructured, raw_record, dict_has.
  by rewrite lookup_singleton_eq, map_size_singleton.
Qed.

Lemma is_unstructured_inv (alarm : dict) :
  is_unstructured alarm = true →
  alarm = raw_record (dict_get alarm "raw_message").
Proof.
  unfold is_unstructured, dict_has, dict_get, raw_record.
  destruct (alarm !! "raw_message") as [v|] eqn:Hv; [| done]. simpl.
  intros Hsize%Nat.eqb_eq.
  assert (delete "raw_message" alarm = ∅) as Hrest.
  { apply map_size_empty_iff. rewrite map_size_delete_Some by eauto. lia. }
  rewrite <- (insert_delete_id alarm "raw_message" v Hv), Hrest. done.
Qed.

Lemma process_alarm_ok (client : jira_client) (alarm : dict) (w : state) :
  ∃ o w', process_alarm client alarm w = (Ok o, w').
Proof.
  unfold process_alarm. destruct (file_alarm client alarm w) as [[o|exc] w']; eauto.
Qed.

Lemma filed_length (client : jira_client) w alarms os w' :
  filed client w alarms os w' → length os = length alarms.
Proof. induction 1; simpl; congruence. Qed.

Lemma process_alarms_filed (client : jira_client) (alarms : list dict)
    (outcomes : list outcome) (w : state) :
  ∃ os w',
    process_alarms client alarms outcomes w = (Ok (outcomes ++ os), w')
    ∧ filed client w alarms os w'.
Proof.
  revert outcomes w. induction alarms as [|alarm rest IH]; intros outcomes w.
  - exists [], w. rewrite app_nil_r. split; [done | constructor].
  - destruct (process_alarm_ok client alarm w) as (o & w1 & Ho).
    destruct (IH (outcomes ++ [o]) w1) as (os & w2 & Hrun & Hfiled).
    exists (o :: os), w2. split; [| by econstructor].
    simpl. unfold bind. rewrite Ho, Hrun. by rewrite <- app_assoc.
Qed.

(** The outcome of a record belongs to that record. *)
Lemma process_alarm_outcome_of (client : jira_client) (alarm : dict) (w w' : state)
    (o : outcome) :
  process_alarm client alarm w = (Ok o, w') → outcome_of alarm o.
Proof.
  unfold process_alarm, file_alarm.
  destruct (is_unstructured alarm) eqn:Hs.
  - unfold ret. intros [= <- _]. by apply is_unstructured_inv.
  - unfold bind.
    destruct (_build_issue_fields alarm w) as [[fields|exc] w1].
    + destruct (client_create_issue client fields w1) as [[key|exc] w2].
      * by intros [= <- _].
      * intros [= <- _]. by destruct exc.
    + intros [= <- _]. by destruct exc.
Qed.

Lemma filed_outcome_of (client : jira_client) w alarms os w' :
  filed client w alarms os w' → Forall2 outcome_of alarms os.
Proof.
  induction 1; constructor; [by eapply process_alarm_outcome_of | done].
Qed.

(** A tracker error on [create_issue] becomes the [jira_error] outcome of
    that alarm. *)
Lemma process_alarm_jira_error (client : jira_client) (alarm : dict) (w wf : state)
    (fields : issue_fields) (status : option Z) (text : option string) :
  is_unstructured alarm = false →
  _build_issue_fields alarm w = (Ok fields, wf) →
  jira_create_issue (calls wf) client fields = Raise (JIRAError status text) →
  ∃ w', process_alarm client alarm w
        = (Ok (JiraFailed (from_option JStr JNull text) (dict_get alarm "AlarmName")), w').
Proof.
  intros Hs Hfields Hcreate. unfold process_alarm, file_alarm.
  rewrite Hs. unfold bind. rewrite Hfields.
  unfold client_create_issue, request. rewrite Hcreate. simpl. eauto.
Qed.

(** C1, as the code has it: when the event yields the records [alarms]
    and the tracker client is obtained, the handler returns, [processed] is the number of
    records, and [results] holds one outcome per record, at the record's
    position, each the outcome of filing that record after the ones before
    it and marked with that record's message or alarm name; a tracker error while one record is filed is the [jira_error]
    outcome of that record. *)
Theorem handler_one_outcome_per_record (event aws_request_id : json)
    (alarms : list dict) (client : jira_client) (w w1 : state) :
  _extract_alarm_payloads event = Ok alarms →
  get_jira_client w = (Ok client, w1) →
  (∃ outcomes w2,
     handler event aws_request_id w
     = (Ok {| request_id := aws_request_id;
              processed := length alarms;
              results := outcomes |}, w2)
     ∧ length outcomes = length alarms
     ∧ filed client w1 alarms outcomes w2
     ∧ Forall2 outcome_of alarms outcomes)
  ∧ (∀ alarm w wf fields status text,
       is_unstructured alarm = false →
       _build_issue_fields alarm w = (Ok fields, wf) →
       jira_create_issue (calls wf) client fields = Raise (JIRAError status text) →
       ∃ w', process_alarm client alarm w
             = (Ok (JiraFailed (from_option JStr JNull text)
                               (dict_get alarm "AlarmName")), w')).
Proof.
  intros Hextract Hclient. split; [| apply process_alarm_jira_error].
  destruct (process_alarms_filed client alarms [] w1) as (os & w2 & Hrun & Hfiled).
  exists os, w2. pose proof (filed_length _ _ _ _ _ Hfiled) as Hlen.
  split; [| by eauto using filed_outcome_of].
  unfold handler, bind, lift. rewrite Hextract, Hclient, Hrun. simpl.
  by rewrite Hlen.
Qed.

(** C3: an alarm is the degenerate record exactly when it is
    [{"raw_message": v}]; its turn of the loop leaves the state of the
    process as it was, so no request reaches the tracker, and records the
    outcome [{"error": "unstructured_alarm_message", "alarm": v}]; the
    loop goes on with the next record. *)
Theorem unstructured_alarm_skipped :
  (∀ alarm, is_unstructured alarm = true ↔ ∃ v, alarm = raw_record v)
  ∧ (∀ client v w,
       process_alarm client (raw_record v) w = (Ok (Unstructured v), w))
  ∧ (∀ v, outcome_dict (Unstructured v)
          = {[ "error" := JStr "unstructured_alarm_message"; "alarm" := v ]})
  ∧ (∀ client v rest outcomes w,
       process_alarms client (raw_record v :: rest) outcomes w
       = process_alarms client rest (outcomes ++ [Unstructured v]) w).
Proof.
  assert (∀ client v w,
            process_alarm client (raw_record v) w = (Ok (Unstructured v), w)) as Hone.
  { intros client v w. unfold process_alarm, file_alarm.
    rewrite is_unstructured_raw. unfold ret, dict_get, raw_record.
    by rewrite lookup_singleton_eq. }
  split.
  { intros alarm. split.
    - intros Hs. eexists. by apply is_unstructured_inv.
    - intros [v ->]. apply is_unstructured_raw. }
  split; [done |]. split; [done |].
  intros client v rest outcomes w. simpl. unfold bind. by rewrite Hone.
Qed.

End OrchestratorClaims.

(* ------------------------------------------------------------------ *)
(** ** Settings that do not resolve *)
(* ------------------------------------------------------------------ *)

Section SettingsClaims.

Context `{Platform}.

Lemma cache_sound_eq (w w' : state) :
  client_cache w' = client_cache w →
  project_key_cache w' = project_key_cache w →
  cache_sound w → cache_sound w'.
Proof. unfold cache_sound. by intros -> ->. Qed.

Lemma preserves_ret {A} (a : A) : preserves (ret a).
Proof. by intros w Hw. Qed.

Lemma preserves_lift {A} (r : result A) : preserves (lift r).
Proof. by intros w Hw. Qed.

Lemma preserves_bind {A B} (m : M A) (k : A → M B) :
  preserves m → (∀ a, preserves (k a)) → preserves (bind m k).
Proof.
  intros Hm Hk w Hw. unfold bind. specialize (Hm w Hw).
  destruct (m w) as [[a|e] w1]; simpl in *; [by apply Hk | done].
Qed.

Lemma preserves_request {A} (c : call) (reply : list call → result A) :
  preserves (request c reply).
Proof. intros w Hw. by apply (cache_sound_eq w). Qed.

Lemma preserves_get_jira_client : preserves get_jira_client.
Proof.
  intros w Hw. unfold get_jira_client, lru_cache1.
  destruct (client_cache w) as [c|] eqn:Hc; [done |].
  unfold bind, lift.
  destruct (_get_env "JIRA_HOST" true None) as [host|e] eqn:Hhost; [| done].
  destruct (_get_env "JIRA_EMAIL" true None) as [email|e] eqn:Hemail; [| done].
  destruct (_get_env "JIRA_API_TOKEN" true None) as [token|e] eqn:Htoken; [| done].
  unfold JIRA, request, ret.
  destruct (jira_connect _ _) as [[]|e]; simpl.
  - split; simpl; [| apply Hw].
    intros _ [Hf | [Hf | Hf]].
    + by rewrite Hhost in Hf.
    + by rewrite Hemail in Hf.
    + by rewrite Htoken in Hf.
  - by apply (cache_sound_eq w).
Qed.

Lemma preserves_get_project_key : preserves get_project_key.
Proof.
  intros w Hw. unfold get_project_key, lru_cache1.
  destruct (project_key_cache w) as [k|] eqn:Hk; [done |].
  unfold bind at 1. unfold lift at 1.
  destruct (_get_env "JIRA_PROJECT_KEY" false None) as [key|e] eqn:Hkey; [| done].
  destruct (truthy key) eqn:Htruthy.
  { unfold ret. simpl. split; simpl; [apply Hw |].
    intros _ exc [Hf | (k' & Hf & Hfalse & _)]; congruence. }
  unfold bind at 1. unfold lift at 1.
  destruct (_get_env "JIRA_PROJECT_NAME" true None) as [name|e] eqn:Hname; [| done].
  unfold bind at 1.
  pose proof (preserves_get_jira_client w Hw) as Hw1.
  destruct (get_jira_client w) as [[client|e] w1]; simpl in Hw1; [| done].
  unfold bind, client_projects, request, lift.
  destruct (jira_projects _ _) as [projects|e]; simpl.
  - destruct (find_project name projects) as [found|e]; simpl.
    + split; simpl; [apply Hw1 |].
      intros _ exc [Hf | (k' & Hf & _ & Hn)]; congruence.
    + by apply (cache_sound_eq w1).
  - by apply (cache_sound_eq w1).
Qed.

Lemma preserves_build_issue_fields (alarm : dict) : preserves (_build_issue_fields alarm).
Proof.
  unfold _build_issue_fields.
  apply preserves_bind; [apply preserves_get_project_key | intros project].
  repeat (apply preserves_bind; [apply preserves_lift | intros ?]).
  apply preserves_bind; [| intros; apply preserves_ret].
  destruct (truthy _); [apply preserves_ret |].
  apply preserves_bind; [apply preserves_lift | intros; apply preserves_ret].
Qed.

Lemma preserves_process_alarm (client : jira_client) (alarm : dict) :
  preserves (process_alarm client alarm).
Proof.
  assert (preserves (file_alarm client alarm)) as Hfile.
  { unfold file_alarm. destruct (is_unstructured alarm); [apply preserves_ret |].
    apply preserves_bind; [apply preserves_build_issue_fields | intros fields].
    apply preserves_bind; [apply preserves_request | intros; apply preserves_ret]. }
  intros w Hw. specialize (Hfile w Hw). unfold process_alarm.
  by destruct (file_alarm client alarm w) as [[o|e] w1].
Qed.

Lemma preserves_process_alarms (client : jira_client) (alarms : list dict)
    (outcomes : list outcome) :
  preserves (process_alarms client alarms outcomes).
Proof.
  revert outcomes. induction alarms as [|alarm rest IH]; intros outcomes; simpl.
  - apply preserves_ret.
  - apply preserves_bind; [apply preserves_process_alarm | intros; apply IH].
Qed.

Lemma preserves_handler (event aws_request_id : json) :
  preserves (handler event aws_request_id).
Proof.
  unfold handler.
  apply preserves_bind; [apply preserves_lift | intros alarms].
  apply preserves_bind; [apply preserves_get_jira_client | intros client].
  apply preserves_bind; [apply preserves_process_alarms | intros; apply preserves_ret].
Qed.

(** The memo tables of every state of a process are sound. *)
Lemma reachable_sound (w : state) : reachable w → cache_sound w.
Proof.
  induction 1 as [|w event rid _ IH].
  - split; simpl; by intros [? ?].
  - by apply preserves_handler.
Qed.

Lemma get_jira_client_fails (w : state) :
  client_cache w = None → credentials_fail →
  ∃ exc, get_jira_client w = (Raise exc, w).
Proof.
  intros Hc Hfail. unfold get_jira_client, lru_cache1. rewrite Hc.
  unfold bind, lift.
  destruct (_get_env "JIRA_HOST" true None) as [host|e] eqn:Hhost; [| eauto].
  destruct (_get_env "JIRA_EMAIL" true None) as [email|e] eqn:Hemail; [| eauto].
  destruct (_get_env "JIRA_API_TOKEN" true None) as [token|e] eqn:Htoken; [| eauto].
  destruct Hfail as [Hf | [Hf | Hf]];
    [rewrite Hhost in Hf | rewrite Hemail in Hf | rewrite Htoken in Hf]; done.
Qed.

(** [get_jira_client] sends at most the connection request and leaves the
    project key's memo table alone. *)
Lemma get_jira_client_effect (w w1 : state) (r : result jira_client) :
  get_jira_client w = (r, w1) →
  project_key_cache w1 = project_key_cache w
  ∧ List.filter is_create (calls w1) = List.filter is_create (calls w).
Proof.
  unfold get_jira_client, lru_cache1.
  destruct (client_cache w) as [c|]; [by intros [= _ <-] |].
  unfold bind, lift.
  destruct (_get_env "JIRA_HOST" true None) as [host|e]; [| by intros [= _ <-]].
  destruct (_get_env "JIRA_EMAIL" true None) as [email|e]; [| by intros [= _ <-]].
  destruct (_get_env "JIRA_API_TOKEN" true None) as [token|e]; [| by intros [= _ <-]].
  unfold JIRA, request, ret.
  destruct (jira_connect _ _) as [[]|e]; intros [= _ <-]; simpl;
    by rewrite List.filter_app, app_nil_r.
Qed.

Lemma get_project_key_fails (w : state) (exc : exn) :
  project_key_cache w = None → project_setting_fails exc →
  get_project_key w = (Raise exc, w).
Proof.
  intros Hc Hfail. unfold get_project_key, lru_cache1. rewrite Hc.
  unfold bind, lift.
  destruct Hfail as [-> | (k & -> & -> & ->)]; done.
Qed.

Lemma process_alarm_project_fails (client : jira_client) (alarm : dict)
    (w : state) (exc : exn) :
  project_key_cache w = None → project_setting_fails exc →
  process_alarm client alarm w = (Ok (outcome_on_error exc alarm), w).
Proof.
  intros Hc Hfail. unfold process_alarm, file_alarm, outcome_on_error.
  destruct (is_unstructured alarm); [done |].
  unfold _build_issue_fields. unfold bind at 1. unfold bind at 1.
  by rewrite (get_project_key_fails w exc Hc Hfail).
Qed.

Lemma process_alarms_project_fails (client : jira_client) (alarms : list dict)
    (outcomes : list outcome) (w : state) (exc : exn) :
  project_key_cache w = None → project_setting_fails exc →
  process_alarms client alarms outcomes w
  = (Ok (outcomes ++ map (outcome_on_error exc) alarms), w).
Proof.
  intros Hc Hfail. revert outcomes.
  induction alarms as [|alarm rest IH]; intros outcomes; simpl.
  - by rewrite app_nil_r.
  - unfold bind. rewrite (process_alarm_project_fails client alarm w exc Hc Hfail).
    rewrite IH. by rewrite <- app_assoc.
Qed.

(** C7, as the code has it.  In any state of a process: when the tracker
    host, email or API token does not resolve, the handler raises and the
    state is as before, so nothing was filed and no results are returned.
    When the project key/name pair does not resolve and the tracker client
    is obtained, the handler returns instead: every record has an outcome,
    an error outcome for each structured record, and no ticket is
    filed. *)
Theorem unresolved_settings (w : state) (event aws_request_id : json) :
  reachable w →
  (credentials_fail → ∃ exc, handler event aws_request_id w = (Raise exc, w))
  ∧ (∀ exc alarms client w1,
       project_setting_fails exc →
       _extract_alarm_payloads event = Ok alarms →
       get_jira_client w = (Ok client, w1) →
       handler event aws_request_id w
       = (Ok {| request_id := aws_request_id;
                processed := length alarms;
                results := map (outcome_on_error exc) alarms |}, w1)
       ∧ List.filter is_create (calls w1) = List.filter is_create (calls w)).
Proof.
  intros Hreach. pose proof (reachable_sound w Hreach) as [Hclient Hproject].
  split.
  - intros Hfail. unfold handler. unfold bind at 1. unfold lift.
    destruct (_extract_alarm_payloads event) as [alarms|e]; [| eauto].
    assert (client_cache w = None) as Hc.
    { destruct (client_cache w) eqn:Hc; [| done]. by destruct Hclient. }
    destruct (get_jira_client_fails w Hc Hfail) as [exc Hexc].
    exists exc. unfold bind. by rewrite Hexc.
  - intros exc alarms client w1 Hfail Hextract Hget.
    destruct (get_jira_client_effect w w1 _ Hget) as [Hcache Hcalls].
    split; [| done].
    assert (project_key_cache w1 = None) as Hc.
    { rewrite Hcache. destruct (project_key_cache w) eqn:Hc; [| done].
      by destruct (Hproject ltac:(done) exc). }
    unfold handler, bind, lift. rewrite Hextract, Hget.
    rewrite (process_alarms_project_fails client alarms [] w1 exc Hc Hfail).
    simpl. by rewrite length_map.
Qed.

End SettingsClaims.

(* ------------------------------------------------------------------ *)
(** ** The statements at concrete inputs *)
(* ------------------------------------------------------------------ *)

(** C1 as stated fails: the event yields three records, the tracker host
    is not set, and the handler raises instead of returning outcomes. *)
Lemma handler_raises_without_client :
  @_extract_alarm_payloads (Demo.platform Demo.no_host) Demo.three_alarms
  = Ok [Demo.alarm "a"; Demo.alarm "b"; Demo.alarm "c"]
  ∧ @handler (Demo.platform Demo.no_host) Demo.three_alarms JNull cold
    = (Raise (EnvironmentError "Environment variable 'JIRA_HOST' is required"), cold).
Proof. split; by vm_compute. Qed.

(** Three alarms, the tracker refuses the second: three outcomes. *)
Lemma handler_one_outcome_per_record_witness :
  ∃ outcomes w2,
    @handler (Demo.platform Demo.refusing) Demo.three_alarms JNull cold
    = (Ok {| request_id := JNull; processed := 3; results := outcomes |}, w2)
    ∧ length outcomes = 3.
Proof.
  destruct (@handler_one_outcome_per_record (Demo.platform Demo.refusing)
              Demo.three_alarms JNull
              [Demo.alarm "a"; Demo.alarm "b"; Demo.alarm "c"] Demo.client cold
              (@get_jira_client (Demo.platform Demo.refusing) cold).2
              eq_refl eq_refl) as [(outcomes & w2 & Hrun & Hlen & _ & _) _].
  exists outcomes, w2. split; assumption.
Defined.

(** The outcomes of that invocation: the refused alarm has the
    [jira_error] outcome, between the two created issues. *)
Lemma handler_three_alarms :
  (@handler (Demo.platform Demo.refusing) Demo.three_alarms JNull cold).1
  = Ok {| request_id := JNull;
          processed := 3;
          results := [ Created "OPS-1";
                       JiraFailed (JStr "issue refused") (JStr "b");
                       Created "OPS-3" ] |}.
Proof. by vm_compute. Qed.

(** A fan-out record whose message is the JSON array [[1, 2]]. *)
Lemma sns_message_not_object_witness :
  @_extract_alarm_payloads (Demo.platform Demo.with_array_message) (JObj Demo.sns_event)
  = Ok [raw_record (JStr Demo.array_text)].
Proof.
  exact (proj2 (@sns_message_not_object (Demo.platform Demo.with_array_message)
                  Demo.sns_event [] [] Demo.sns_record Demo.sns_envelope
                  Demo.array_text (JArr [JInt 1; JInt 2])
                  eq_refl eq_refl eq_refl eq_refl eq_refl)).
Defined.

(** No tracker host: the handler raises and the state is untouched. *)
Lemma unresolved_settings_witness :
  ∃ exc,
    @handler (Demo.platform Demo.no_host) Demo.three_alarms JNull cold = (Raise exc, cold).
Proof.
  apply (proj1 (@unresolved_settings (Demo.platform Demo.no_host) cold
                  Demo.three_alarms JNull (@reachable_cold _))).
  left. reflexivity.
Defined.

(** C7 as stated fails: neither a project key nor a project name is set,
    yet the handler returns, with one outcome per record. *)
Lemma missing_project_returns_results :
  @project_setting_fails (Demo.platform Demo.no_project)
    (EnvironmentError "Environment variable 'JIRA_PROJECT_NAME' is required")
  ∧ (@handler (Demo.platform Demo.no_project) Demo.three_alarms JNull cold).1
    = Ok {| request_id := JNull;
            processed := 3;
            results :=
              [ Unexpected "Environment variable 'JIRA_PROJECT_NAME' is required" (JStr "a");
                Unexpected "Environment variable 'JIRA_PROJECT_NAME' is required" (JStr "b");
                Unexpected "Environment variable 'JIRA_PROJECT_NAME' is required" (JStr "c") ] |}.
Proof.
  split; [| by vm_compute].
  right. exists JNull. by vm_compute.
Qed.

(* ------------------------------------------------------------------ *)
(** ** More facts about the string operations *)
(* ------------------------------------------------------------------ *)

Module PyStrMore.
Import PyStr PyStrFacts Trimmed.

#[local] Arguments String.append !_ _ / : simpl nomatch.

Lemma take_drop (n : nat) (s : string) : take n s +:+ drop n s = s.
Proof.
  revert s; induction n as [|n IH]; intros [|a s]; simpl; try done.
  by rewrite IH.
Qed.

Lemma startswith_split (p s : string) :
  startswith p s = true → s = p +:+ drop (String.length p) s.
Proof.
  unfold startswith. revert s; induction p as [|a p IH]; intros s Hp; simpl in *.
  - by destruct s.
  - destruct s as [|b s]; [done |]. simpl in Hp.
    destruct (ascii_dec a b) as [->|]; [| done]. simpl. f_equal. by apply IH.
Qed.

Lemma endswith_split (q s : string) :
  endswith q s = true → s = take (String.length s - String.length q) s +:+ q.
Proof.
  unfold endswith. intros [_ Hq%String.eqb_eq]%andb_prop.
  rewrite <- (take_drop (String.length s - String.length q) s) at 1.
  by rewrite Hq.
Qed.

Lemma endswith_app_r (q p t : string) :
  String.length q ≤ String.length t → endswith q (p +:+ t) = endswith q t.
Proof.
  intros Hlen. unfold endswith. rewrite str_length_app.
  replace (String.length p + String.length t - String.length q)
    with (String.length p + (String.length t - String.length q)) by lia.
  rewrite drop_app.
  replace (String.length q <=? String.length p + String.length t) with true
    by (symmetry; apply Nat.leb_le; lia).
  replace (String.length q <=? String.length t) with true
    by (symmetry; apply Nat.leb_le; lia).
  done.
Qed.

Lemma replace_length (a b : ascii) (s : string) :
  String.length (replace a b s) = String.length s.
Proof. induction s as [|x s IH]; simpl; congruence. Qed.

Lemma rev_app_spec (s t : string) : String.rev_app s t = String.rev s +:+ t.
Proof.
  unfold String.rev. revert t. induction s as [|a s IH]; intros t; simpl; [done |].
  rewrite (IH (String a t)), (IH (String a "")). by rewrite str_app_assoc.
Qed.

Lemma rev_cons (a : ascii) (s : string) :
  String.rev (String a s) = String.rev s +:+ String a "".
Proof. unfold String.rev at 1. simpl. apply rev_app_spec. Qed.

Lemma rev_app_distr (s t : string) :
  String.rev (s +:+ t) = String.rev t +:+ String.rev s.
Proof.
  induction s as [|a s IH]; simpl.
  - by rewrite str_app_empty_r.
  - by rewrite !rev_cons, IH, str_app_assoc.
Qed.

Lemma rev_involutive (s : string) : String.rev (String.rev s) = s.
Proof.
  induction s as [|a s IH]; [done |].
  by rewrite rev_cons, rev_app_distr, IH.
Qed.

Lemma rev_replace (a b : ascii) (s : string) :
  String.rev (replace a b s) = replace a b (String.rev s).
Proof.
  assert (∀ u v, replace a b (u +:+ v) = replace a b u +:+ replace a b v) as Happ.
  { induction u as [|x u IH]; intros v; simpl; [done | by rewrite IH]. }
  induction s as [|x s IH]; [done |].
  simpl. by rewrite !rev_cons, IH, Happ.
Qed.

Lemma lstrip_left_trimmed (s : string) : left_trimmed (lstrip s) = true.
Proof.
  induction s as [|a s IH]; simpl; [done |].
  destruct (isspace a) eqn:Ha; [done |]. simpl. by rewrite Ha.
Qed.

Lemma lstrip_fixed (s : string) : left_trimmed s = true → lstrip s = s.
Proof. destruct s as [|a s]; simpl; [done |]. by destruct (isspace a). Qed.

Lemma lstrip_keeps_last (x : string) (a : ascii) :
  isspace a = false → ∃ z, lstrip (x +:+ String a "") = z +:+ String a "".
Proof.
  intros Ha. induction x as [|b x IH]; simpl.
  - rewrite Ha. by exists "".
  - destruct (isspace b); [done |]. by exists (String b x).
Qed.

(** Cutting white space off the end leaves the beginning as it is. *)
Lemma rstrip_left_trimmed (s : string) :
  left_trimmed s = true → left_trimmed (rstrip s) = true.
Proof.
  destruct s as [|a s]; [done |]. simpl. intros Ha%negb_true_iff.
  unfold rstrip. rewrite rev_cons.
  destruct (lstrip_keeps_last (String.rev s) a Ha) as [z ->].
  rewrite rev_app_distr. simpl. by rewrite Ha.
Qed.

Lemma rstrip_right_trimmed (s : string) :
  left_trimmed (String.rev (rstrip s)) = true.
Proof. unfold rstrip. rewrite rev_involutive. apply lstrip_left_trimmed. Qed.

(** A string with no white space at either end is its own [strip]. *)
Lemma strip_fixed (s : string) :
  left_trimmed s = true → left_trimmed (String.rev s) = true → strip s = s.
Proof.
  intros Hl Hr. unfold strip, rstrip.
  by rewrite (lstrip_fixed s Hl), (lstrip_fixed _ Hr), rev_involutive.
Qed.

Lemma strip_trimmed (s : string) :
  left_trimmed (strip s) = true ∧ left_trimmed (String.rev (strip s)) = true.
Proof.
  unfold strip. split.
  - apply rstrip_left_trimmed, lstrip_left_trimmed.
  - apply rstrip_right_trimmed.
Qed.

Lemma strip_idempotent (s : string) : strip (strip s) = strip s.
Proof. destruct (strip_trimmed s). by apply strip_fixed. Qed.

Lemma replace_left_trimmed (s : string) :
  left_trimmed s = true → left_trimmed (replace " " "-" s) = true.
Proof.
  destruct s as [|a s]; simpl; [done |].
  destruct (Ascii.eqb_spec a " ") as [->|]; done.
Qed.

(** A label: the [strip] of a part with its spaces turned into hyphens. *)
Lemma label_trimmed (part : string) :
  strip (replace " " "-" (strip part)) = replace " " "-" (strip part).
Proof.
  destruct (strip_trimmed part) as [Hl Hr].
  apply strip_fixed; [by apply replace_left_trimmed |].
  rewrite rev_replace. by apply replace_left_trimmed.
Qed.

Lemma lower_char_idempotent (a : ascii) : lower_char (lower_char a) = lower_char a.
Proof. by destruct a as [[] [] [] [] [] [] [] []]. Qed.

Lemma lower_idempotent (s : string) : lower (lower s) = lower s.
Proof.
  induction s as [|a s IH]; simpl; [done |].
  by rewrite lower_char_idempotent, IH.
Qed.

End PyStrMore.

(* ------------------------------------------------------------------ *)
(** ** Further properties of the configuration resolver *)
(* ------------------------------------------------------------------ *)

Section ResolverExtras.

Context `{Platform}.

Import PyStr PyStrFacts PyStrMore Trimmed.

#[local] Arguments String.append !_ _ / : simpl nomatch.

(** X1: a variable whose value is not empty and lacks one of the two
    reference delimiters resolves to that value as it is, whether the
    setting is required or not and whatever the default; neither the
    secret store nor the fallback secret has a say. *)
Theorem get_env_literal (name s : string) (required : bool) (default : option string) :
  getenv name = Some s → s ≠ "" →
  startswith reference_prefix s = false ∨ endswith reference_suffix s = false →
  _get_env name required default = Ok (JStr s).
Proof.
  intros Henv Hs Hlit. unfold _get_env. rewrite Henv. simpl.
  rewrite (resolve_literal s Hlit). simpl.
  apply String.eqb_neq in Hs. rewrite Hs. simpl. rewrite Hs. simpl.
  rewrite Hs. simpl. by rewrite andb_false_r.
Qed.

(** X2: when the fallback secret cannot be read, every setting whose
    variable is unset or empty fails with the error of the fallback, the
    optional ones and the ones with a default included. *)
Theorem broken_fallback_fails_unset (name : string) (required : bool)
    (default : option string) (exc : exn) :
  _get_secret_payload = Raise exc →
  getenv name = None ∨ getenv name = Some "" →
  _get_env name required default = Raise exc.
Proof.
  intros Hpay Henv. unfold _get_env.
  destruct Henv as [-> | ->]; simpl; by rewrite Hpay.
Qed.

(** X3: the issue type is never empty: a setting that resolves to an
    empty value gives [Task], any other value is kept, and only a failing
    resolution makes [get_issue_type] fail. *)
Theorem issue_type_never_empty :
  (∀ v, get_issue_type = Ok v → truthy v = true)
  ∧ (∀ v, _get_env "JIRA_ISSUE_TYPE" false (Some "Task") = Ok v →
          get_issue_type = Ok (if truthy v then v else JStr "Task"))
  ∧ (∀ exc, _get_env "JIRA_ISSUE_TYPE" false (Some "Task") = Raise exc ↔
            get_issue_type = Raise exc).
Proof.
  unfold get_issue_type. split; [| split].
  - intros v. destruct (_get_env _ _ _) as [v0|e]; simpl; [| done].
    destruct (truthy v0) eqn:Hv; intros [= <-]; done.
  - by intros v ->.
  - intros exc. destruct (_get_env _ _ _) as [v0|e]; simpl; [done |].
    split; by intros [= ->].
Qed.

(** X4: a value with both delimiters always unpacks: cut after the
    second colon, what is between the braces is [resolve], [secretsmanager]
    and the rest, so the value is the prefix, that rest and the suffix. *)
Theorem reference_body_splits (value : string) :
  startswith reference_prefix value = true →
  endswith reference_suffix value = true →
  split_max ":" 2 (slice 2 2 value) = ["resolve"; "secretsmanager"; slice 25 2 value]
  ∧ value = reference_prefix +:+ slice 25 2 value +:+ reference_suffix.
Proof.
  intros Hpre Hsuf.
  pose proof (startswith_split _ _ Hpre) as Hvalue.
  set (t := drop (String.length reference_prefix) value) in *.
  assert (2 ≤ String.length t ∧ endswith reference_suffix t = true) as [Hlen Hend].
  { rewrite Hvalue in Hsuf. destruct t as [|a [|b t']].
    - done.
    - exfalso. revert Hsuf. unfold endswith. simpl.
      destruct (Ascii.eqb_spec ":" "}"); done.
    - split; [simpl; lia |].
      by rewrite endswith_app_r in Hsuf by (simpl; lia). }
  pose proof (endswith_split _ _ Hend) as Ht.
  assert (slice 25 2 value = take (String.length t - 2) t) as Hrest.
  { unfold slice. fold t. f_equal.
    rewrite Hvalue, str_length_app. simpl. lia. }
  assert (value = reference_prefix +:+ slice 25 2 value +:+ reference_suffix) as Hwhole.
  { rewrite Hrest. rewrite Hvalue at 1. f_equal. exact Ht. }
  split; [| done].
  assert (slice 2 2 value = "resolve:secretsmanager:" +:+ slice 25 2 value) as ->.
  { rewrite Hwhole at 1.
    apply (slice_wrapped "{{" ("resolve:secretsmanager:" +:+ slice 25 2 value) "}}"). }
  simpl. by destruct (slice 25 2 value).
Qed.

(** X5: every label [get_alarm_label] returns is not empty, holds no
    space and has no white space at either end; a setting that resolves to
    an empty value gives no label. *)
Theorem alarm_labels_clean :
  (∀ labels, get_alarm_label = Ok labels →
     Forall (λ label, label ≠ "" ∧ has_char " " label = false ∧ strip label = label) labels)
  ∧ (∀ v, _get_env "JIRA_ALARM_LABEL" false None = Ok v → truthy v = false →
          get_alarm_label = Ok []).
Proof.
  split.
  - intros labels. unfold get_alarm_label.
    destruct (_get_env _ _ _) as [v|e]; simpl; [| done].
    destruct (truthy v); [| by intros [= <-]].
    destruct v; try done. intros [= <-]. unfold label_tokens.
    apply Forall_forall. intros label Hin.
    apply list_elem_of_fmap in Hin as (part & -> & Hpart).
    apply list_elem_of_In, List.filter_In in Hpart as [_ Hne].
    apply negb_true_iff, String.eqb_neq in Hne.
    split; [| split].
    + intros Hempty. apply Hne.
      apply (f_equal String.length) in Hempty. rewrite replace_length in Hempty.
      by destruct (strip part).
    + by apply replace_has_char.
    + apply label_trimmed.
  - intros v Hv Hfalse. unfold get_alarm_label. rewrite Hv. simpl. by rewrite Hfalse.
Qed.

(** X6: every component [get_components] returns is not empty and has no
    white space at either end, and the components come in the order of
    the setting: they are the trimmed parts between the commas, the blank
    parts left out. *)
Theorem components_clean (raw : string) :
  _get_env "JIRA_COMPONENTS" false None = Ok (JStr raw) →
  ∃ components,
    get_components = Ok components
    ∧ Forall (λ c, c ≠ "" ∧ strip c = c) components
    ∧ components = List.filter (λ c, negb (String.eqb c "")) (map strip (split "," raw)).
Proof.
  intros Hraw. unfold get_components. rewrite Hraw. simpl.
  destruct (negb (negb (raw =? "")%string)) eqn:Hempty.
  - apply negb_true_iff, negb_false_iff, String.eqb_eq in Hempty as ->.
    exists []. by repeat split.
  - eexists. split; [done |].
    assert (∀ parts,
              map strip (List.filter (λ c, negb (String.eqb (strip c) "")) parts)
              = List.filter (λ c, negb (String.eqb c "")) (map strip parts)) as Hcomm.
    { induction parts as [|part parts IH]; simpl; [done |].
      destruct (negb (strip part =? "")%string); simpl; by rewrite IH. }
    split; [| apply Hcomm].
    rewrite Hcomm. apply Forall_forall. intros c Hin.
    apply list_elem_of_In, List.filter_In in Hin as [Hin Hne].
    apply negb_true_iff, String.eqb_neq in Hne.
    split; [done |].
    apply List.in_map_iff in Hin as (part & <- & _). apply strip_idempotent.
Qed.

(** X7: the project is looked up by name whatever the case of the
    letters: two spellings of the name that differ in case only find the
    same key, the key of the first project of the list with that name. *)
Theorem find_project_ignores_case (a b : string) (projects : list project) :
  lower a = lower b →
  find_project (JStr a) projects
  = match List.find (same_name a) projects with
    | Some p => Ok (JStr (proj_key p))
    | None => Raise (RuntimeError ("Unable to resolve Jira project key for name '"
                                   +:+ a +:+ "'"))
    end
  ∧ ∀ key, find_project (JStr a) projects = Ok key ↔ find_project (JStr b) projects = Ok key.
Proof.
  intros Hab.
  assert (∀ n, find_project (JStr n) projects
               = match List.find (same_name n) projects with
                 | Some p => Ok (JStr (proj_key p))
                 | None => Raise (RuntimeError ("Unable to resolve Jira project key for name '"
                                                +:+ n +:+ "'"))
                 end) as Hfind.
  { intros n. induction projects as [|p rest IH]; simpl; [done |].
    unfold same_name at 1. by destruct (String.eqb _ _). }
  split; [apply Hfind |].
  intros key. rewrite !Hfind.
  assert (List.find (same_name a) projects = List.find (same_name b) projects) as ->.
  { assert (∀ p, same_name a p = same_name b p) as Hsame.
    { intros p. unfold same_name. by rewrite Hab. }
    clear Hfind. induction projects as [|p rest IH]; simpl; [done |].
    by rewrite Hsame, IH. }
  by destruct (List.find _ _).
Qed.

End ResolverExtras.

Lemma get_env_literal_witness :
  @_get_env (Demo.platform Demo2.lost_fallback) "JIRA_HOST" true None
  = Ok (JStr "https://example.atlassian.net").
Proof.
  apply (@get_env_literal (Demo.platform Demo2.lost_fallback)); [done | done |].
  left. reflexivity.
Defined.

Lemma broken_fallback_fails_unset_witness :
  @_get_env (Demo.platform Demo2.lost_fallback) "JIRA_COMPONENTS" false None
  = Raise (OtherError "ResourceNotFoundException" "jira/settings").
Proof.
  apply (@broken_fallback_fails_unset (Demo.platform Demo2.lost_fallback));
    [reflexivity | by left].
Defined.

Lemma reference_body_splits_witness :
  Demo.api_key_reference
  = reference_prefix +:+ PyStr.slice 25 2 Demo.api_key_reference +:+ reference_suffix.
Proof.
  apply (reference_body_splits Demo.api_key_reference); reflexivity.
Defined.

Lemma components_clean_witness :
  ∃ components,
    @get_components (Demo.platform Demo2.with_components) = Ok components
    ∧ Forall (λ c, c ≠ "" ∧ PyStr.strip c = c) components
    ∧ components = ["api"; "billing"].
Proof.
  apply (@components_clean (Demo.platform Demo2.with_components) " api , , billing ").
  reflexivity.
Defined.

Lemma find_project_ignores_case_witness :
  @find_project (Demo.platform Demo.refusing) (JStr "OPERATIONS") Demo2.two_projects
  = Ok (JStr "OPS").
Proof.
  apply (proj2 (@find_project_ignores_case (Demo.platform Demo.refusing)
                  "operations" "OPERATIONS" Demo2.two_projects eq_refl)).
  reflexivity.
Defined.

(* ------------------------------------------------------------------ *)
(** ** Further properties of the process state *)
(* ------------------------------------------------------------------ *)

Section StateExtras.

Context `{Platform}.

Lemma cache_step_refl (w : state) : cache_step w w.
Proof. repeat split; try by left. exists []. by rewrite app_nil_r. Qed.

Lemma cache_step_trans (w w1 w2 : state) :
  cache_step w w1 → cache_step w1 w2 → cache_step w w2.
Proof.
  intros (Hc1 & Hp1 & [s1 Hs1]) (Hc2 & Hp2 & [s2 Hs2]). repeat split.
  - destruct Hc2 as [Hc2 | (Hnone & c & Hsome & Hcred)].
    + rewrite Hc2. exact Hc1.
    + destruct Hc1 as [Hc1 | (_ & c' & Hsome' & _)]; [| congruence].
      right. split; [congruence | eauto].
  - destruct Hp2 as [Hp2 | (Hnone & Hsome)].
    + rewrite Hp2. exact Hp1.
    + destruct Hp1 as [Hp1 | (_ & Hsome')].
      * right. split; [congruence | done].
      * rewrite Hnone in Hsome'. by destruct Hsome'.
  - exists (s1 ++ s2). by rewrite Hs2, Hs1, app_assoc.
Qed.

Lemma steps_ret {A} (a : A) : steps (ret a).
Proof. intros w. apply cache_step_refl. Qed.

Lemma steps_lift {A} (r : result A) : steps (lift r).
Proof. intros w. apply cache_step_refl. Qed.

Lemma steps_bind {A B} (m : M A) (k : A → M B) :
  steps m → (∀ a, steps (k a)) → steps (bind m k).
Proof.
  intros Hm Hk w. unfold bind. specialize (Hm w).
  destruct (m w) as [[a|e] w1]; simpl in *; [| done].
  eapply cache_step_trans; [exact Hm | apply Hk].
Qed.

Lemma steps_request {A} (c : call) (reply : list call → result A) :
  steps (request c reply).
Proof. intros w. repeat split; simpl; try by left. by exists [c]. Qed.

Lemma credentials_ok (host email token : json) :
  _get_env "JIRA_HOST" true None = Ok host →
  _get_env "JIRA_EMAIL" true None = Ok email →
  _get_env "JIRA_API_TOKEN" true None = Ok token →
  credentials = Ok {| server := host; basic_auth := (email, token) |}.
Proof. unfold credentials. by intros -> -> ->. Qed.

Lemma steps_get_jira_client : steps get_jira_client.
Proof.
  intros w. unfold get_jira_client, lru_cache1.
  destruct (client_cache w) as [c|] eqn:Hc; [apply cache_step_refl |].
  unfold bind, lift.
  destruct (_get_env "JIRA_HOST" true None) as [host|e] eqn:Hhost;
    [| apply cache_step_refl].
  destruct (_get_env "JIRA_EMAIL" true None) as [email|e] eqn:Hemail;
    [| apply cache_step_refl].
  destruct (_get_env "JIRA_API_TOKEN" true None) as [token|e] eqn:Htoken;
    [| apply cache_step_refl].
  unfold JIRA, request, ret.
  destruct (jira_connect _ _) as [[]|e]; simpl.
  - repeat split; simpl; [| by left | by eexists].
    right. split; [done |]. eexists. split; [done |]. by apply credentials_ok.
  - repeat split; simpl; [by left | by left | by eexists].
Qed.

Lemma steps_get_project_key : steps get_project_key.
Proof.
  intros w. unfold get_project_key, lru_cache1.
  destruct (project_key_cache w) as [k|] eqn:Hk; [apply cache_step_refl |].
  unfold bind at 1. unfold lift at 1.
  destruct (_get_env "JIRA_PROJECT_KEY" false None) as [key|e];
    [| apply cache_step_refl].
  destruct (truthy key).
  { unfold ret. simpl. repeat split; simpl; [by left | | exists []; by rewrite app_nil_r].
    right. by split. }
  unfold bind at 1. unfold lift at 1.
  destruct (_get_env "JIRA_PROJECT_NAME" true None) as [name|e];
    [| apply cache_step_refl].
  unfold bind at 1.
  pose proof (steps_get_jira_client w) as Hstep.
  destruct (get_jira_client w) as [[client|e] w1] eqn:Hget; simpl in Hstep; [| done].
  destruct (get_jira_client_effect w w1 _ Hget) as [Hsame _].
  eapply cache_step_trans; [exact Hstep |].
  unfold bind, client_projects, request, lift.
  destruct (jira_projects _ _) as [projects|e]; simpl.
  - destruct (find_project name projects) as [found|e]; simpl.
    + repeat split; simpl; [by left | | by eexists].
      right. split; [congruence | done].
    + repeat split; simpl; [by left | by left | by eexists].
  - repeat split; simpl; [by left | by left | by eexists].
Qed.

Lemma steps_build_issue_fields (alarm : dict) : steps (_build_issue_fields alarm).
Proof.
  unfold _build_issue_fields.
  apply steps_bind; [apply steps_get_project_key | intros project].
  repeat (apply steps_bind; [apply steps_lift | intros ?]).
  apply steps_bind; [| intros; apply steps_ret].
  destruct (truthy _); [apply steps_ret |].
  apply steps_bind; [apply steps_lift | intros; apply steps_ret].
Qed.

Lemma steps_process_alarm (client : jira_client) (alarm : dict) :
  steps (process_alarm client alarm).
Proof.
  assert (steps (file_alarm client alarm)) as Hfile.
  { unfold file_alarm. destruct (is_unstructured alarm); [apply steps_ret |].
    apply steps_bind; [apply steps_build_issue_fields | intros fields].
    apply steps_bind; [apply steps_request | intros; apply steps_ret]. }
  intros w. specialize (Hfile w). unfold process_alarm.
  by destruct (file_alarm client alarm w) as [[o|e] w1].
Qed.

Lemma steps_process_alarms (client : jira_client) (alarms : list dict)
    (outcomes : list outcome) :
  steps (process_alarms client alarms outcomes).
Proof.
  revert outcomes. induction alarms as [|alarm rest IH]; intros outcomes; simpl.
  - apply steps_ret.
  - apply steps_bind; [apply steps_process_alarm | intros; apply IH].
Qed.

Lemma steps_handler (event aws_request_id : json) : steps (handler event aws_request_id).
Proof.
  unfold handler.
  apply steps_bind; [apply steps_lift | intros alarms].
  apply steps_bind; [apply steps_get_jira_client | intros client].
  apply steps_bind; [apply steps_process_alarms | intros; apply steps_ret].
Qed.

(** X8: across an invocation of the handler each memo table is written
    at most once, and only when it was empty: a filled table is never
    changed, the client's table is filled with the client of the current
    settings only; the requests already sent stay at the head of the
    log. *)
Theorem handler_cache_step (event aws_request_id : json) (w : state) :
  cache_step w (handler event aws_request_id w).2.
Proof. apply steps_handler. Qed.

Lemma reachable_client_exact (w : state) (c : jira_client) :
  reachable w → client_cache w = Some c → credentials = Ok c.
Proof.
  intros Hreach. revert c. induction Hreach as [|w event rid _ IH]; intros c; [done |].
  destruct (steps_handler event rid w) as ([Hsame | (_ & c' & Hsome & Hcred)] & _).
  - rewrite Hsame. apply IH.
  - rewrite Hsome. by intros [= <-].
Qed.

(** X9: in every state of a process, the client [get_jira_client]
    returns is the one built from the host, email and token the settings
    resolve to now: a client memoised by an earlier invocation is never
    out of date. *)
Theorem client_matches_settings (w w1 : state) (c : jira_client) :
  reachable w →
  get_jira_client w = (Ok c, w1) →
  credentials = Ok c.
Proof.
  intros Hreach Hget.
  destruct (steps_get_jira_client w) as (Hclient & _). rewrite Hget in Hclient.
  simpl in Hclient.
  assert (client_cache w1 = Some c) as Hc1.
  { revert Hget. unfold get_jira_client, lru_cache1.
    destruct (client_cache w) as [c0|] eqn:Hc; [by intros [= <- <-] |].
    destruct (bind _ _ w) as [[c0|e] w0]; [| done]. by intros [= <- <-]. }
  destruct Hclient as [Hsame | (_ & c' & Hsome & Hcred)].
  - apply (reachable_client_exact w c Hreach). congruence.
  - congruence.
Qed.

(** X10: [get_jira_client] is memoised on success only: once it has
    returned a client, the next call returns the same client and leaves
    the state, the request log included, as it is; after a failure the
    memo table is still empty, so the next call tries again. *)
Theorem get_jira_client_memoised :
  (∀ w c w1, get_jira_client w = (Ok c, w1) → get_jira_client w1 = (Ok c, w1))
  ∧ (∀ w exc w1, get_jira_client w = (Raise exc, w1) → client_cache w1 = None).
Proof.
  split.
  - intros w c w1. unfold get_jira_client, lru_cache1.
    destruct (client_cache w) as [c0|] eqn:Hc.
    + intros [= <- <-]. by rewrite Hc.
    + destruct (bind _ _ w) as [[c0|e] w0]; [| done]. by intros [= <- <-].
  - intros w exc w1. unfold get_jira_client, lru_cache1.
    destruct (client_cache w) as [c0|] eqn:Hc; [done |].
    unfold bind, lift.
    destruct (_get_env "JIRA_HOST" true None) as [host|e]; [| by intros [= _ <-]].
    destruct (_get_env "JIRA_EMAIL" true None) as [email|e]; [| by intros [= _ <-]].
    destruct (_get_env "JIRA_API_TOKEN" true None) as [token|e]; [| by intros [= _ <-]].
    unfold JIRA, request, ret.
    destruct (jira_connect _ _) as [[]|e]; [done |]. by intros [= _ <-].
Qed.

Lemma get_project_key_raise_cache (w w1 : state) (exc : exn) :
  get_project_key w = (Raise exc, w1) → project_key_cache w1 = None.
Proof.
  unfold get_project_key, lru_cache1.
  destruct (project_key_cache w) as [k|] eqn:Hk; [done |].
  unfold bind at 1. unfold lift at 1.
  destruct (_get_env "JIRA_PROJECT_KEY" false None) as [key|e]; [| by intros [= _ <-]].
  destruct (truthy key); [done |].
  unfold bind at 1. unfold lift at 1.
  destruct (_get_env "JIRA_PROJECT_NAME" true None) as [name|e]; [| by intros [= _ <-]].
  unfold bind at 1.
  destruct (get_jira_client w) as [[client|e] w0] eqn:Hget.
  - destruct (get_jira_client_effect w w0 _ Hget) as [Hsame _].
    unfold bind, client_projects, request, lift.
    destruct (jira_projects _ _) as [projects|e]; simpl.
    + destruct (find_project name projects) as [found|e]; [done |].
      intros [= _ <-]. simpl. congruence.
    + intros [= _ <-]. simpl. congruence.
  - destruct (get_jira_client_effect w w0 _ Hget) as [Hsame _].
    intros [= _ <-]. congruence.
Qed.

(** X11: [get_project_key] is memoised on success only: once it has
    returned a key, the next call returns the same key without a request
    to the tracker; after a failure the memo table is still empty.  With
    a non-empty [JIRA_PROJECT_KEY] the first call needs no request
    either: the project list of the tracker is never asked for. *)
Theorem get_project_key_memoised :
  (∀ w k w1, get_project_key w = (Ok k, w1) → get_project_key w1 = (Ok k, w1))
  ∧ (∀ w exc w1, get_project_key w = (Raise exc, w1) → project_key_cache w1 = None)
  ∧ (∀ w k, project_key_cache w = None →
       _get_env "JIRA_PROJECT_KEY" false None = Ok k → truthy k = true →
       get_project_key w = (Ok k, set_project_key_cache k w)
       ∧ calls (set_project_key_cache k w) = calls w).
Proof.
  split; [| split].
  - intros w k w1. unfold get_project_key, lru_cache1.
    destruct (project_key_cache w) as [k0|] eqn:Hk.
    + intros [= <- <-]. by rewrite Hk.
    + destruct (bind _ _ w) as [[k0|e] w0]; [| done]. by intros [= <- <-].
  - intros w exc w1. apply get_project_key_raise_cache.
  - intros w k Hnone Hkey Htruthy. split; [| done].
    unfold get_project_key, lru_cache1. rewrite Hnone.
    unfold bind, lift. by rewrite Hkey, Htruthy.
Qed.

End StateExtras.

Lemma client_matches_settings_witness :
  @credentials (Demo.platform Demo.refusing) = Ok Demo.client.
Proof.
  apply (@client_matches_settings (Demo.platform Demo.refusing) cold
           (@get_jira_client (Demo.platform Demo.refusing) cold).2 Demo.client
           (@reachable_cold _) eq_refl).
Defined.

(* ------------------------------------------------------------------ *)
(** ** Further properties of the handler *)
(* ------------------------------------------------------------------ *)

Section HandlerExtras.

Context `{Platform}.

Import PyStr PyStrFacts PyStrMore.

Lemma files_nothing_ret {A} (a : A) : files_nothing (ret a).
Proof. by intros w. Qed.

Lemma files_nothing_lift {A} (r : result A) : files_nothing (lift r).
Proof. by intros w. Qed.

Lemma files_nothing_bind {A B} (m : M A) (k : A → M B) :
  files_nothing m → (∀ a, files_nothing (k a)) → files_nothing (bind m k).
Proof.
  intros Hm Hk w. unfold bind. specialize (Hm w).
  destruct (m w) as [[a|e] w1]; simpl in *; [| done].
  by rewrite Hk.
Qed.

Lemma tickets_request {A} (c : call) (reply : list call → result A) (w : state) :
  tickets (request c reply w).2 = tickets w + (if is_create c then 1 else 0).
Proof.
  unfold tickets, request. simpl. rewrite List.filter_app, length_app. simpl.
  by destruct (is_create c).
Qed.

Lemma files_nothing_get_jira_client : files_nothing get_jira_client.
Proof.
  intros w. destruct (get_jira_client w) as [r w1] eqn:Hget.
  destruct (get_jira_client_effect w w1 r Hget) as [_ Hcalls].
  unfold tickets. simpl. by rewrite Hcalls.
Qed.

Lemma files_nothing_get_project_key : files_nothing get_project_key.
Proof.
  intros w. unfold get_project_key, lru_cache1.
  destruct (project_key_cache w) as [k|]; [done |].
  lazymatch goal with
  | |- context [bind ?m ?k w] => assert (files_nothing (bind m k)) as Hbody
  end.
  { apply files_nothing_bind; [apply files_nothing_lift | intros key].
    destruct (truthy key); [apply files_nothing_ret |].
    apply files_nothing_bind; [apply files_nothing_lift | intros name].
    apply files_nothing_bind; [apply files_nothing_get_jira_client | intros client].
    apply files_nothing_bind; [| intros; apply files_nothing_lift].
    intros w0. unfold client_projects. rewrite tickets_request. simpl. lia. }
  specialize (Hbody w).
  destruct (bind _ _ w) as [[k|e] w1]; simpl in *; done.
Qed.

Lemma files_nothing_build_issue_fields (alarm : dict) :
  files_nothing (_build_issue_fields alarm).
Proof.
  unfold _build_issue_fields.
  apply files_nothing_bind; [apply files_nothing_get_project_key | intros project].
  repeat (apply files_nothing_bind; [apply files_nothing_lift | intros ?]).
  apply files_nothing_bind; [| intros; apply files_nothing_ret].
  destruct (truthy _); [apply files_nothing_ret |].
  apply files_nothing_bind; [apply files_nothing_lift | intros; apply files_nothing_ret].
Qed.

(** One turn of the loop sends at most one create request, none for the
    degenerate record, and exactly one when the outcome is a created
    issue. *)
Lemma process_alarm_tickets (client : jira_client) (alarm : dict) (w w' : state)
    (o : outcome) :
  process_alarm client alarm w = (Ok o, w') →
  tickets w + (if is_created o then 1 else 0) ≤ tickets w'
  ∧ tickets w' ≤ tickets w + (if is_unstructured alarm then 0 else 1).
Proof.
  unfold process_alarm, file_alarm.
  destruct (is_unstructured alarm).
  { unfold ret. intros [= <- <-]. simpl. lia. }
  unfold bind.
  pose proof (files_nothing_build_issue_fields alarm w) as Hbuild.
  destruct (_build_issue_fields alarm w) as [[fields|exc] w1]; simpl in Hbuild.
  - pose proof (tickets_request (CallCreateIssue client fields)
                  (λ history, jira_create_issue history client fields) w1) as Hreq.
    unfold client_create_issue.
    destruct (request _ _ w1) as [[key|exc] w2]; simpl in Hreq.
    + unfold ret. intros [= <- <-]. simpl. lia.
    + intros [= <- <-]. destruct exc; simpl; lia.
  - intros [= <- <-]. destruct exc; simpl; lia.
Qed.

Lemma filed_tickets (client : jira_client) w alarms os w' :
  filed client w alarms os w' →
  tickets w + length (List.filter is_created os) ≤ tickets w'
  ∧ tickets w' ≤ tickets w + length (structured alarms).
Proof.
  induction 1 as [w|w alarm o w1 rest os w2 Hone _ [IHlo IHhi]]; [simpl; lia |].
  destruct (process_alarm_tickets _ _ _ _ _ Hone) as [Hlo Hhi].
  unfold structured in *. simpl.
  destruct (is_created o), (is_unstructured alarm); simpl in *; lia.
Qed.

(** What a successful invocation is made of. *)
Lemma handler_ok_inv (event aws_request_id : json) (w w' : state) (resp : response) :
  handler event aws_request_id w = (Ok resp, w') →
  ∃ alarms client w1,
    _extract_alarm_payloads event = Ok alarms
    ∧ get_jira_client w = (Ok client, w1)
    ∧ filed client w1 alarms (results resp) w'
    ∧ processed resp = length alarms
    ∧ request_id resp = aws_request_id.
Proof.
  unfold handler. unfold bind at 1. unfold lift.
  destruct (_extract_alarm_payloads event) as [alarms|e]; [| done].
  unfold bind at 1.
  destruct (get_jira_client w) as [[client|e] w1]; [| done].
  destruct (process_alarms_filed client alarms [] w1) as (os & w2 & Hrun & Hfiled).
  unfold bind. rewrite Hrun. unfold ret. simpl. intros [= <- <-].
  exists alarms, client, w1. simpl.
  repeat split; try done. by apply filed_length in Hfiled.
Qed.

(** X12: an invocation that returns has sent at most one create request
    per structured record of the event, none for the degenerate ones, and
    at least one for every [created] outcome it reports: no issue is
    reported that was not asked for, no record is filed twice. *)
Theorem handler_tickets (event aws_request_id : json) (alarms : list dict)
    (w w' : state) (resp : response) :
  _extract_alarm_payloads event = Ok alarms →
  handler event aws_request_id w = (Ok resp, w') →
  tickets w + length (List.filter is_created (results resp)) ≤ tickets w'
  ∧ tickets w' ≤ tickets w + length (structured alarms).
Proof.
  intros Hextract Hrun.
  destruct (handler_ok_inv _ _ _ _ _ Hrun)
    as (alarms' & client & w1 & Hextract' & Hget & Hfiled & _).
  assert (alarms' = alarms) as -> by congruence.
  pose proof (files_nothing_get_jira_client w) as Hclient.
  rewrite Hget in Hclient. simpl in Hclient.
  destruct (filed_tickets _ _ _ _ _ Hfiled). lia.
Qed.

(** X13: the handler raises in two cases only, with the error of the
    extraction, the state then being untouched, or, the extraction done,
    with the error of [get_jira_client]; nothing that happens while the
    records are filed makes it raise. *)
Theorem handler_raises_iff (event aws_request_id : json) (w : state) (exc : exn) :
  ((handler event aws_request_id w).1 = Raise exc ↔
   _extract_alarm_payloads event = Raise exc
   ∨ (is_ok (_extract_alarm_payloads event) = true
      ∧ (get_jira_client w).1 = Raise exc))
  ∧ (_extract_alarm_payloads event = Raise exc →
     handler event aws_request_id w = (Raise exc, w)).
Proof.
  unfold handler. unfold bind at 1 3. unfold lift.
  destruct (_extract_alarm_payloads event) as [alarms|e]; simpl.
  - split; [| done]. unfold bind at 1.
    destruct (get_jira_client w) as [[client|e] w1]; simpl.
    + destruct (process_alarms_filed client alarms [] w1) as (os & w2 & Hrun & _).
      unfold bind. rewrite Hrun. simpl. split; [done |]. by intros [| [_ ?]].
    + split; [intros [= ->]; by right | intros [| [_ [= ->]]]; done].
  - split; [| by intros [= ->]].
    split; [intros [= ->]; by left | intros [[= ->] | [? _]]; done].
Qed.

(** X14: for a structured record whose fields are built, the reply of
    the tracker to the one create request decides the outcome: a key gives
    [created] with that key, an exception the outcome of the [except]
    clauses; when the fields cannot be built, the error becomes the
    outcome and no create request is sent. *)
Theorem create_reply_decides (client : jira_client) (alarm : dict) (w wf : state) :
  is_unstructured alarm = false →
  (∀ fields,
     _build_issue_fields alarm w = (Ok fields, wf) →
     ∃ w', process_alarm client alarm w
           = (Ok match jira_create_issue (calls wf) client fields with
                 | Ok issue_key => Created issue_key
                 | Raise exc => except_clauses alarm exc
                 end, w')
           ∧ calls w' = calls wf ++ [CallCreateIssue client fields])
  ∧ (∀ exc,
       _build_issue_fields alarm w = (Raise exc, wf) →
       process_alarm client alarm w = (Ok (except_clauses alarm exc), wf)
       ∧ tickets wf = tickets w).
Proof.
  intros Hs. split.
  - intros fields Hfields. unfold process_alarm, file_alarm. rewrite Hs.
    unfold bind. rewrite Hfields. unfold client_create_issue, request.
    destruct (jira_create_issue _ _ _); simpl; eauto.
  - intros exc Hfields. split.
    + unfold process_alarm, file_alarm. rewrite Hs. unfold bind. by rewrite Hfields.
    + pose proof (files_nothing_build_issue_fields alarm w) as Hn.
      by rewrite Hfields in Hn.
Qed.

End HandlerExtras.

Lemma handler_tickets_witness :
  tickets cold + 2
  ≤ tickets (@handler (Demo.platform Demo.refusing) Demo.three_alarms JNull cold).2
  ∧ tickets (@handler (Demo.platform Demo.refusing) Demo.three_alarms JNull cold).2
    ≤ tickets cold + 3.
Proof.
  apply (@handler_tickets (Demo.platform Demo.refusing) Demo.three_alarms JNull
           [Demo.alarm "a"; Demo.alarm "b"; Demo.alarm "c"] cold
           (@handler (Demo.platform Demo.refusing) Demo.three_alarms JNull cold).2
           {| request_id := JNull; processed := 3;
              results := [ Created "OPS-1";
                           JiraFailed (JStr "issue refused") (JStr "b");
                           Created "OPS-3" ] |}).
  - reflexivity.
  - by vm_compute.
Defined.

Lemma create_reply_decides_witness :
  ∃ w', @process_alarm (Demo.platform Demo.refusing) Demo.client (Demo.alarm "a") cold
        = (Ok (Created "OPS-0"), w').
Proof.
  destruct (@_build_issue_fields (Demo.platform Demo.refusing) (Demo.alarm "a") cold)
    as [[fields|exc] wf] eqn:Hfields; [| by vm_compute in Hfields].
  destruct (proj1 (@create_reply_decides (Demo.platform Demo.refusing) Demo.client
                     (Demo.alarm "a") cold wf eq_refl) fields Hfields) as (w' & Hrun & _).
  exists w'. rewrite Hrun. f_equal. f_equal.
  vm_compute in Hfields. injection Hfields as <- <-. by vm_compute.
Defined.

(* ------------------------------------------------------------------ *)
(** ** Further properties of the ticket field builder *)
(* ------------------------------------------------------------------ *)

Section BuilderExtras.

Context `{Platform}.

Import PyStr PyStrFacts PyStrMore.

#[local] Arguments String.append !_ _ / : simpl nomatch.

Lemma join_items_strs (i : nat) (parts : list json) :
  Forall (λ v, is_str v = true) parts → is_ok (join_items i parts) = true.
Proof.
  intros Hall. revert i. induction Hall as [|v rest Hv _ IH]; intros i; [done |].
  destruct v; try done. simpl. specialize (IH (S i)).
  by destruct (join_items (S i) rest).
Qed.

Lemma join_items_head (i : nat) (s : string) (rest : list json) (strs : list string) :
  join_items i (JStr s :: rest) = Ok strs → ∃ tail, strs = s :: tail.
Proof.
  simpl. destruct (join_items (S i) rest) as [tail|e]; [| done].
  intros [= <-]. eauto.
Qed.

Lemma startswith_refl (s : string) : startswith s s = true.
Proof.
  rewrite <- (str_app_empty_r s) at 2. apply startswith_app.
Qed.

Lemma join_startswith (sep s : string) (tail : list string) :
  startswith s (join sep (s :: tail)) = true.
Proof.
  destruct tail as [|t tail]; simpl; [apply startswith_refl | apply startswith_app].
Qed.

Lemma build_description_not_str (alarm : dict) (v : json) :
  alarm !! "NewStateReason" = Some v → is_str v = false →
  _build_description alarm = Raise (join_error 11 v).
Proof.
  intros Hv Hnot. unfold _build_description.
  destruct (truthy (dict_get alarm "Trigger")), (truthy (dict_get alarm "raw_message"));
    unfold dict_get_or; rewrite Hv; destruct v; try done.
Qed.

(** X15: [_build_description] returns when [NewStateReason] is absent or
    is a string, whatever else the alarm holds, and the text then begins
    with the fixed first line; a reason of any other type raises the
    [TypeError] of [str.join] for item 11. *)
Theorem build_description_reason (alarm : dict) :
  (alarm !! "NewStateReason" = None ∨ (∃ s, alarm !! "NewStateReason" = Some (JStr s)) →
   is_ok (_build_description alarm) = true)
  ∧ (∀ v, alarm !! "NewStateReason" = Some v → is_str v = false →
          _build_description alarm = Raise (join_error 11 v))
  ∧ (∀ text, _build_description alarm = Ok text →
             startswith "CloudWatch alarm transitioned state." text = true).
Proof.
  split; [| split].
  - intros Hreason. unfold _build_description.
    assert (is_str (dict_get_or alarm "NewStateReason" (JStr "N/A")) = true) as Hstr.
    { unfold dict_get_or. destruct Hreason as [-> | [s ->]]; done. }
    match goal with
    | |- is_ok (rbind (join_items 0 ?parts) _) = true =>
        assert (is_ok (join_items 0 parts) = true) as Hok
    end.
    { apply join_items_strs.
      destruct (truthy (dict_get alarm "Trigger")), (truthy (dict_get alarm "raw_message"));
        try destruct (dict_get alarm "raw_message");
        repeat constructor; exact Hstr. }
    by destruct (join_items 0 _).
  - apply build_description_not_str.
  - intros text. unfold _build_description.
    match goal with
    | |- rbind (join_items 0 ?parts) _ = _ → _ =>
        destruct (join_items 0 parts) as [strs|e] eqn:Hjoin; simpl; [| done]
    end.
    intros [= <-].
    assert (∃ tail, strs = "CloudWatch alarm transitioned state." :: tail) as [tail ->].
    { revert Hjoin.
      destruct (truthy (dict_get alarm "Trigger")), (truthy (dict_get alarm "raw_message"));
        apply join_items_head. }
    apply join_startswith.
Qed.

(** What a successful build of the fields is made of. *)
Lemma build_issue_fields_inv (alarm : dict) (w w' : state) (fields : issue_fields) :
  _build_issue_fields alarm w = (Ok fields, w') →
  ∃ project description issuetype labels components account assignee,
    get_project_key w = (Ok project, w')
    ∧ _build_description alarm = Ok description
    ∧ get_issue_type = Ok issuetype
    ∧ get_alarm_label = Ok labels
    ∧ get_components = Ok components
    ∧ _get_env "JIRA_DEFAULT_ASSIGNEE_ACCOUNT_ID" false None = Ok account
    ∧ (if truthy account then assignee = Some (AssigneeId account)
       else ∃ legacy,
           _get_env "JIRA_DEFAULT_ASSIGNEE" false None = Ok legacy
           ∧ assignee = if truthy legacy then Some (AssigneeName legacy) else None)
    ∧ fields = {| f_project_key := project;
                  f_summary := _build_summary alarm;
                  f_description := description;
                  f_issuetype := issuetype;
                  f_labels := labels;
                  f_components := match components with [] => None | _ => Some components end;
                  f_assignee := assignee |}.
Proof.
  unfold _build_issue_fields. unfold bind at 1.
  destruct (get_project_key w) as [[project|e] w1]; [| done].
  unfold bind, lift, ret.
  destruct (_build_description alarm) as [description|e]; [| done].
  destruct get_issue_type as [issuetype|e]; [| done].
  destruct get_alarm_label as [labels|e]; [| done].
  destruct get_components as [components|e]; [| done].
  destruct (_get_env "JIRA_DEFAULT_ASSIGNEE_ACCOUNT_ID" false None) as [account|e];
    [| done].
  destruct (truthy account) eqn:Haccount.
  - intros [= <- <-]. exists project, description, issuetype, labels, components, account.
    eexists. rewrite Haccount. by repeat split.
  - destruct (_get_env "JIRA_DEFAULT_ASSIGNEE" false None) as [legacy|e] eqn:Hlegacy;
      [| done].
    intros [= <- <-]. exists project, description, issuetype, labels, components, account.
    eexists. rewrite Haccount. repeat split; try done. by exists legacy.
Qed.

Lemma label_tokens_clean (raw : string) :
  Forall (λ label, label ≠ "" ∧ has_char " " label = false) (label_tokens raw).
Proof.
  unfold label_tokens. apply Forall_forall. intros label Hin.
  apply list_elem_of_fmap in Hin as (part & -> & Hpart).
  apply list_elem_of_In, List.filter_In in Hpart as [_ Hne].
  apply negb_true_iff, String.eqb_neq in Hne. split.
  - intros Hempty. apply Hne.
    apply (f_equal String.length) in Hempty. rewrite replace_length in Hempty.
    by destruct (strip part).
  - by apply replace_has_char.
Qed.

(** X16: the fields [_build_issue_fields] returns always make a ticket
    the tracker's limits allow: the summary is that of the alarm and has
    at most 255 characters, the issue type is not empty, no label is empty
    or holds a space, the components are left out rather than sent empty,
    and building them has sent no create request. *)
Theorem issue_fields_invariant (alarm : dict) (w w' : state) (fields : issue_fields) :
  _build_issue_fields alarm w = (Ok fields, w') →
  f_summary fields = _build_summary alarm
  ∧ String.length (f_summary fields) ≤ 255
  ∧ truthy (f_issuetype fields) = true
  ∧ Forall (λ label, label ≠ "" ∧ has_char " " label = false) (f_labels fields)
  ∧ match f_components fields with
    | Some components => components ≠ [] ∧ Forall (λ c, c ≠ "") components
    | None => True
    end
  ∧ _build_description alarm = Ok (f_description fields)
  ∧ tickets w' = tickets w.
Proof.
  intros Hbuild.
  pose proof (files_nothing_build_issue_fields alarm w) as Hnone.
  rewrite Hbuild in Hnone. simpl in Hnone.
  destruct (build_issue_fields_inv _ _ _ _ Hbuild)
    as (project & description & issuetype & labels & components & account & assignee
        & _ & Hdesc & Htype & Hlabels & Hcomps & _ & _ & ->).
  simpl. repeat split; try done.
  - apply build_summary_length.
  - revert Htype. unfold get_issue_type.
    destruct (_get_env _ _ _) as [v|e]; simpl; [| done].
    destruct (truthy v) eqn:Hv; by intros [= <-].
  - revert Hlabels. unfold get_alarm_label.
    destruct (_get_env _ _ _) as [v|e]; simpl; [| done].
    destruct (truthy v); [| by intros [= <-]].
    destruct v; try done. intros [= <-]. apply label_tokens_clean.
  - destruct components as [|c cs]; [done |]. split; [done |].
    revert Hcomps. unfold get_components.
    destruct (_get_env _ _ _) as [v|e]; simpl; [| done].
    destruct (negb (truthy v)); [done |].
    destruct v; try done. intros [= Hcs]. rewrite <- Hcs.
    apply Forall_forall. intros x Hin.
    apply list_elem_of_In, List.in_map_iff in Hin as (part & <- & Hpart).
    apply List.filter_In in Hpart as [_ Hne].
    by apply negb_true_iff, String.eqb_neq in Hne.
Qed.

(** X17: the assignee of the fields follows the account id when that
    setting is not empty, whatever the legacy setting is; the legacy user
    name is read, and used when not empty, only when the account id is
    empty; with both empty there is no assignee. *)
Theorem assignee_precedence (alarm : dict) (w w' : state) (fields : issue_fields) :
  _build_issue_fields alarm w = (Ok fields, w') →
  ∃ account,
    _get_env "JIRA_DEFAULT_ASSIGNEE_ACCOUNT_ID" false None = Ok account
    ∧ (truthy account = true → f_assignee fields = Some (AssigneeId account))
    ∧ (truthy account = false →
       ∃ legacy,
         _get_env "JIRA_DEFAULT_ASSIGNEE" false None = Ok legacy
         ∧ f_assignee fields = if truthy legacy then Some (AssigneeName legacy) else None).
Proof.
  intros Hbuild.
  destruct (build_issue_fields_inv _ _ _ _ Hbuild)
    as (project & description & issuetype & labels & components & account & assignee
        & _ & _ & _ & _ & _ & Haccount & Hassignee & ->).
  exists account. simpl. split; [done |].
  destruct (truthy account); split; done.
Qed.

(** X18: a record whose [NewStateReason] is not a string is never
    filed: once the project key is there, its turn of the loop ends with
    the [unexpected_exception] outcome that carries the [TypeError] of the
    description, and sends no request. *)
Theorem non_text_reason_not_filed (client : jira_client) (alarm : dict)
    (w w1 : state) (project v : json) :
  get_project_key w = (Ok project, w1) →
  alarm !! "NewStateReason" = Some v →
  is_str v = false →
  process_alarm client alarm w
  = (Ok (Unexpected (exn_str (join_error 11 v)) (dict_get alarm "AlarmName")), w1).
Proof.
  intros Hkey Hv Hnot.
  assert (is_unstructured alarm = false) as Hs.
  { destruct (is_unstructured alarm) eqn:Hs; [| done].
    apply is_unstructured_inv in Hs. rewrite Hs in Hv.
    unfold raw_record in Hv. by rewrite lookup_singleton_ne in Hv. }
  pose proof (build_description_not_str alarm v Hv Hnot) as Hdesc.
  unfold process_alarm, file_alarm. rewrite Hs.
  unfold _build_issue_fields. unfold bind at 1. unfold bind at 1.
  rewrite Hkey. unfold bind at 1. unfold lift at 1. by rewrite Hdesc.
Qed.

End BuilderExtras.

Lemma issue_fields_invariant_witness :
  ∃ fields w',
    @_build_issue_fields (Demo.platform Demo.with_labels) (Demo.alarm "a") cold
    = (Ok fields, w')
    ∧ f_labels fields = ["Prod-Outage"; "SEV1"]
    ∧ String.length (f_summary fields) ≤ 255.
Proof.
  destruct (@_build_issue_fields (Demo.platform Demo.with_labels) (Demo.alarm "a") cold)
    as [[fields|exc] w'] eqn:Hbuild; [| by vm_compute in Hbuild].
  exists fields, w'. split; [done |]. split.
  - vm_compute in Hbuild. by injection Hbuild as <- _.
  - exact (proj1 (proj2 (@issue_fields_invariant (Demo.platform Demo.with_labels)
                           (Demo.alarm "a") cold w' fields Hbuild))).
Defined.

Lemma assignee_precedence_witness :
  ∃ fields w',
    @_build_issue_fields (Demo.platform Demo2.two_assignees) (Demo.alarm "a") cold
    = (Ok fields, w')
    ∧ f_assignee fields = Some (AssigneeId (JStr "5b10ac8d82e05b22cc7d4ef5")).
Proof.
  destruct (@_build_issue_fields (Demo.platform Demo2.two_assignees) (Demo.alarm "a") cold)
    as [[fields|exc] w'] eqn:Hbuild; [| by vm_compute in Hbuild].
  exists fields, w'. split; [done |].
  destruct (@assignee_precedence (Demo.platform Demo2.two_assignees)
              (Demo.alarm "a") cold w' fields Hbuild) as (account & Haccount & Hid & _).
  vm_compute in Haccount. injection Haccount as <-. by apply Hid.
Defined.

Lemma non_text_reason_not_filed_witness :
  (@process_alarm (Demo.platform Demo.refusing) Demo.client Demo2.numeric_reason cold).1
  = Ok (Unexpected "sequence item 11: expected str instance, int found" (JStr "cpu")).
Proof.
  rewrite (@non_text_reason_not_filed (Demo.platform Demo.refusing) Demo.client
             Demo2.numeric_reason cold
             (@get_project_key (Demo.platform Demo.refusing) cold).2
             (JStr "OPS") (JInt 5) eq_refl eq_refl eq_refl).
  reflexivity.
Defined.

(* ------------------------------------------------------------------ *)
(** ** Further properties of the event normaliser *)
(* ------------------------------------------------------------------ *)

Section NormaliserExtras.

Context `{Platform}.

Lemma sns_message_bad (record : json) :
  is_ok (sns_message record) = negb (bad_sns record)
  ∧ ∀ exc, sns_message record = Raise exc → ∃ msg, exc = AttributeError msg.
Proof.
  destruct record as [| | | | | |r]; try (split; [done | by intros]).
  unfold sns_message, bad_sns, dict_get_or.
  destruct (r !! "Sns") as [[]|]; simpl; split; try done; intros exc [= <-]; eauto.
Qed.

(** X19: the fan-out loop ends exactly when no record of the envelope
    stops it, that is, when no record is a dict whose [Sns] entry is not a
    dict and no message is a string on which [json.loads] raises something
    that is not a [JSONDecodeError].  One such record, wherever it is and
    whatever the other records hold, costs the event all its alarms, while
    a record without a message is only left out.  The error is that of a
    record of the envelope: the [AttributeError] of an [Sns] entry that is
    not a dict, or what [json.loads] raised on a message. *)
Theorem sns_payloads_fails_iff (records : list json) (payloads : list dict) :
  is_ok (sns_payloads records payloads) = negb (existsb record_fails records)
  ∧ (∀ exc, sns_payloads records payloads = Raise exc →
       ∃ record, record ∈ records
         ∧ ((bad_sns record = true ∧ ∃ msg, exc = AttributeError msg)
            ∨ (∃ r sns s, record = JObj r ∧ r !! "Sns" = Some (JObj sns)
                 ∧ sns !! "Message" = Some (JStr s)
                 ∧ json_loads s = LoadFailed exc)))
  ∧ (∀ e, e !! "Records" = Some (JArr records) →
          is_ok (_extract_alarm_payloads (JObj e)) = negb (existsb record_fails records)).
Proof.
  split; [apply sns_payloads_ok |]. split.
  - revert payloads. induction records as [|record rest IH]; intros acc exc; simpl; [done |].
    destruct (sns_message_bad record) as [Hok Herr].
    destruct (sns_message record) as [message|e] eqn:Hmessage; simpl.
    + assert (∀ acc', sns_payloads rest acc' = Raise exc →
                ∃ bad, bad ∈ record :: rest
                  ∧ ((bad_sns bad = true ∧ ∃ msg, exc = AttributeError msg)
                     ∨ (∃ r sns s, bad = JObj r ∧ r !! "Sns" = Some (JObj sns)
                          ∧ sns !! "Message" = Some (JStr s)
                          ∧ json_loads s = LoadFailed exc))) as Hlater.
      { intros acc' Hrest. destruct (IH _ _ Hrest) as (bad & Hin & Hbad).
        exists bad. split; [by apply list_elem_of_further | done]. }
      destruct (negb (truthy message)); [apply Hlater |].
      destruct (_maybe_json message) as [candidate|e] eqn:Hload; simpl.
      * destruct candidate; apply Hlater.
      * intros [= ->]. exists record. split; [apply list_elem_of_here |]. right.
        destruct (maybe_json_raise _ _ Hload) as (s & -> & Hs).
        destruct record as [| | | | | |r]; simpl in Hmessage; try done.
        unfold dict_get_or in Hmessage.
        destruct (r !! "Sns") as [[| | | | | |sns]|] eqn:Hsns; simpl in Hmessage; try done.
        exists r, sns, s. repeat split; try done.
        injection Hmessage as Hmessage. unfold dict_get in Hmessage.
        revert Hmessage. destruct (sns !! "Message") as [v|]; simpl; [| done].
        by intros ->.
    + intros [= ->]. exists record. split; [apply list_elem_of_here |]. left.
      split; [| by apply Herr]. simpl in Hok. symmetry in Hok. by apply negb_false_iff in Hok.
  - intros e He. rewrite (extract_records e _ He). apply sns_payloads_ok.
Qed.

Lemma sns_payloads_cons_text (m : string) (rest : list json) (payloads : list dict) :
  m ≠ "" → json_loads m = NotJson →
  sns_payloads (sns_record_of m :: rest) payloads
  = sns_payloads rest (payloads ++ [raw_record (JStr m)]).
Proof.
  intros Hne Hparse. simpl. unfold dict_get_or, dict_get.
  rewrite lookup_singleton_eq. simpl. rewrite lookup_singleton_eq. simpl.
  apply String.eqb_neq in Hne as ->. simpl. by rewrite Hparse.
Qed.

Lemma sns_payloads_text (messages : list string) (payloads : list dict) :
  Forall (λ m, m ≠ "" ∧ json_loads m = NotJson) messages →
  sns_payloads (sns_record_of <$> messages) payloads
  = Ok (payloads ++ ((λ m, raw_record (JStr m)) <$> messages)).
Proof.
  intros Hall. revert payloads.
  induction Hall as [|m rest [Hne Hparse] _ IH]; intros payloads.
  - simpl. by rewrite app_nil_r.
  - rewrite fmap_cons, (sns_payloads_cons_text m _ payloads Hne Hparse).
    rewrite IH. by rewrite <- app_assoc.
Qed.

Lemma process_alarm_raw (client : jira_client) (v : json) (w : state) :
  process_alarm client (raw_record v) w = (Ok (Unstructured v), w).
Proof.
  unfold process_alarm, file_alarm. rewrite is_unstructured_raw.
  unfold ret, dict_get, raw_record. by rewrite lookup_singleton_eq.
Qed.

Lemma process_alarms_raw (client : jira_client) (values : list json)
    (outcomes : list outcome) (w : state) :
  process_alarms client (raw_record <$> values) outcomes w
  = (Ok (outcomes ++ (Unstructured <$> values)), w).
Proof.
  revert outcomes. induction values as [|v rest IH]; intros outcomes; simpl.
  - by rewrite app_nil_r.
  - unfold bind. rewrite process_alarm_raw, IH. by rewrite <- app_assoc.
Qed.

(** X20: a fan-out envelope whose messages are all plain text, not
    empty and not JSON, is answered without filing anything: once the
    client is there, the handler returns one [unstructured_alarm_message]
    outcome per message, each with its text, in order, and the state is
    the one [get_jira_client] left. *)
Theorem text_messages_unstructured (e : dict) (messages : list string)
    (client : jira_client) (aws_request_id : json) (w w1 : state) :
  e !! "Records" = Some (JArr (sns_record_of <$> messages)) →
  Forall (λ m, m ≠ "" ∧ json_loads m = NotJson) messages →
  get_jira_client w = (Ok client, w1) →
  handler (JObj e) aws_request_id w
  = (Ok {| request_id := aws_request_id;
           processed := length messages;
           results := (λ m, Unstructured (JStr m)) <$> messages |}, w1).
Proof.
  intros He Hall Hget. unfold handler, bind, lift.
  rewrite (extract_records e _ He).
  rewrite (sns_payloads_text messages [] Hall). simpl. rewrite Hget.
  assert (((λ m, raw_record (JStr m)) <$> messages) = raw_record <$> (JStr <$> messages))
    as -> by (by rewrite <- list_fmap_compose).
  rewrite (process_alarms_raw client (JStr <$> messages) [] w1). simpl.
  unfold ret. rewrite <- list_fmap_compose. by rewrite length_fmap.
Qed.

End NormaliserExtras.

(** A fan-out envelope of two records: the message of the first is a
    JSON array, that of the second is 4400 digits.  No [Sns] entry is at fault,
    and the extraction raises the [ValueError] of the digit limit. *)
Lemma sns_message_decode_error :
  existsb bad_sns (sns_record_of <$> [ Demo.array_text; Demo.long_number ]) = false
  ∧ @_extract_alarm_payloads (Demo.platform Demo.with_array_message)
      (JObj {[ "Records" := JArr (sns_record_of <$> [ Demo.array_text; Demo.long_number ]) ]})
    = Raise (Demo.digit_limit_error 4400).
Proof. split; by vm_compute. Qed.

Lemma text_messages_unstructured_witness :
  @handler (Demo.platform Demo.refusing) (JObj Demo2.text_event) JNull cold
  = (Ok {| request_id := JNull;
           processed := 2;
           results := [ Unstructured (JStr "disk full"); Unstructured (JStr "oops") ] |},
     (@get_jira_client (Demo.platform Demo.refusing) cold).2).
Proof.
  apply (@text_messages_unstructured (Demo.platform Demo.refusing) Demo2.text_event
           Demo2.text_messages Demo.client JNull cold _ eq_refl).
  - repeat constructor; done.
  - reflexivity.
Defined.

(* ------------------------------------------------------------------ *)
(** ** Properties of the comment on an existing issue *)
(* ------------------------------------------------------------------ *)

Section UpdateExtras.

Context `{Platform}.

Import PyStr PyStrFacts PyStrMore.

(** X21: [_update_existing_issue] sends one comment, on the issue it
    is given, that begins with [CloudWatch alarm triggered again.], and
    returns the [commented] outcome when the tracker accepts it, the
    tracker's error otherwise; a reason that is neither empty nor a string
    raises the [TypeError] of [str.join] for item 4, whatever the tracker
    would answer. *)
Theorem update_existing_issue_spec (add_comment : string → string → result unit)
    (issue_key : string) (alarm : dict) :
  (truthy (dict_get alarm "NewStateReason") = false
   ∨ is_str (dict_get alarm "NewStateReason") = true →
   ∃ text,
     startswith "CloudWatch alarm triggered again." text = true
     ∧ _update_existing_issue add_comment issue_key alarm
       = match add_comment issue_key text with
         | Ok _ => Ok {[ "issue_key" := JStr issue_key; "action" := JStr "commented" ]}
         | Raise exc => Raise exc
         end)
  ∧ (truthy (dict_get alarm "NewStateReason") = true →
     is_str (dict_get alarm "NewStateReason") = false →
     _update_existing_issue add_comment issue_key alarm
     = Raise (join_error 4 (dict_get alarm "NewStateReason"))).
Proof.
  split.
  - intros Hreason. unfold _update_existing_issue.
    match goal with
    | |- context [join_items 0 ?parts] =>
        assert (is_ok (join_items 0 parts) = true) as Hok;
        [| destruct (join_items 0 parts) as [strs|e] eqn:Hjoin; [| done]]
    end.
    { apply join_items_strs.
      destruct (truthy (dict_get alarm "NewStateReason")) eqn:Ht;
        [destruct Hreason as [? | Hstr]; [done |] |]; repeat constructor; exact Hstr. }
    assert (∃ tail, strs = "CloudWatch alarm triggered again." :: tail) as [tail ->].
    { revert Hjoin. destruct (truthy (dict_get alarm "NewStateReason"));
        apply join_items_head. }
    exists (join (String "010" EmptyString) ("CloudWatch alarm triggered again." :: tail)).
    split; [apply join_startswith |]. unfold rbind.
    by destruct (add_comment issue_key _) as [[]|].
  - intros Ht Hnot. unfold _update_existing_issue. rewrite Ht.
    by destruct (dict_get alarm "NewStateReason").
Qed.

End UpdateExtras.

(* ------------------------------------------------------------------ *)
(** ** Properties of the create-user handler *)
(* ------------------------------------------------------------------ *)

Module CreateUserFacts.
Import CreateUser.

Section Facts.

Context `{Table}.

(** The missing fields of a dict are the ones it has no key for. *)
Lemma missing_fields_dict (p : dict) (fields : list string) :
  missing_fields (JObj p) fields
  = Ok (List.filter (λ f, negb (dict_has p f)) fields).
Proof.
  induction fields as [|f rest IH]; simpl; [done |].
  rewrite IH. simpl. by destruct (dict_has p f).
Qed.

Lemma missing_fields_scalar (v : json) :
  match v with JNull | JBool _ | JInt _ | JFloat _ => True | _ => False end →
  missing_fields v required
  = Raise (TypeError ("argument of type '" +:+ type_name v +:+ "' is not iterable")).
Proof. by destruct v. Qed.

Lemma content_type (extra : option (gmap string string)) (status : nat) (payload : json) :
  default ∅ extra !! "Content-Type" = None →
  headers (_response status payload extra) !! "Content-Type" = Some "application/json".
Proof.
  intros Hfree. unfold _response. simpl.
  rewrite lookup_union_r by done. apply lookup_singleton_eq.
Qed.

(** X22: whatever makes [_parse_payload] raise, the answer is the
    status 400 with the text of the error after [Invalid JSON body: ], and
    nothing is written; so it is for a body that is a string and not JSON,
    and for a body that is not empty and not a string. *)
Theorem create_user_bad_body (event : json) (aws_request_id : option string)
    (d : draws) (requests : list item) :
  (∀ exc, _parse_payload event = Raise exc →
     handler event aws_request_id d requests
     = (Ok (_response 400 (error_body ("Invalid JSON body: " +:+ exn_str exc)) None),
        requests))
  ∧ (∀ e s, event = JObj e → e !! "body" = Some (JStr s) → s ≠ "" →
       truthy (dict_get e "isBase64Encoded") = false → json_loads s = NotJson →
       _parse_payload event = Raise (ValueError (loads_error s)))
  ∧ (∀ e v, event = JObj e → e !! "body" = Some v → truthy v = true → is_str v = false →
       truthy (dict_get e "isBase64Encoded") = false →
       _parse_payload event
       = Raise (TypeError ("the JSON object must be str, bytes or bytearray, not "
                           +:+ type_name v))).
Proof.
  split; [| split].
  - intros exc Hparse. unfold handler. by rewrite Hparse.
  - intros e s -> Hbody Hne Hflag Hloads. unfold _parse_payload, dict_has, dict_get.
    rewrite Hbody. unfold dict_get in Hflag. rewrite Hflag. simpl.
    apply String.eqb_neq in Hne as ->. simpl. by rewrite Hloads.
  - intros e v -> Hbody Hv Hnot Hflag. unfold _parse_payload, dict_has, dict_get.
    rewrite Hbody. unfold dict_get in Hflag. rewrite Hflag. simpl. rewrite Hv.
    by destruct v.
Qed.

(** X23: when the payload is a dict that lacks some of [username],
    [first_name] and [last_name], the answer is the status 400 naming the
    missing fields, in that order, and nothing is written. *)
Theorem create_user_missing_fields (event : json) (aws_request_id : option string)
    (d : draws) (requests : list item) (p : dict) (f : string) (fs : list string) :
  _parse_payload event = Ok (JObj p) →
  List.filter (λ f, negb (dict_has p f)) required = f :: fs →
  handler event aws_request_id d requests
  = (Ok (_response 400
           (error_body ("Missing required fields: " +:+ PyStr.join ", " (f :: fs))) None),
     requests).
Proof.
  intros Hparse Hmissing. unfold handler.
  by rewrite Hparse, missing_fields_dict, Hmissing.
Qed.

(** X24: when the payload is a dict with the three fields, the handler
    sends one put request, for the item made of the three values, the
    drawn id and the drawn time; it answers 201 with the request id in
    [x-request-id] when the table accepts the item and raises
    [Failed to create user] when it does not. *)
Theorem create_user_writes (event : json) (aws_request_id : option string)
    (d : draws) (requests : list item) (p : dict) (u f l : json) :
  _parse_payload event = Ok (JObj p) →
  p !! "username" = Some u → p !! "first_name" = Some f → p !! "last_name" = Some l →
  let new_item := {| id := item_uuid d; username := u; first_name := f;
                     last_name := l; created_at := now d |} in
  handler event aws_request_id d requests
  = match put_item requests new_item with
    | Ok _ =>
        (Ok (_response 201
               (JObj {[ "message" := JStr "User created"; "user" := item_json new_item ]})
               (Some {[ "x-request-id" := default (request_uuid d) aws_request_id ]})),
         requests ++ [new_item])
    | Raise _ => (Raise failed_to_create, requests ++ [new_item])
    end.
Proof.
  intros Hparse Hu Hf Hl new_item. unfold handler.
  rewrite Hparse, missing_fields_dict. unfold required, dict_has. simpl.
  rewrite Hu, Hf, Hl. simpl. reflexivity.
Qed.

(** X25: an invocation sends at most one put request, and sends it only
    for a payload that is a dict with the three fields; the item is then
    made of the payload's three values, the drawn id and the drawn
    time. *)
Theorem create_user_at_most_one_put (event : json) (aws_request_id : option string)
    (d : draws) (requests requests' : list item) (r : result response) :
  handler event aws_request_id d requests = (r, requests') →
  requests' = requests
  ∨ ∃ p u f l,
      _parse_payload event = Ok (JObj p)
      ∧ p !! "username" = Some u ∧ p !! "first_name" = Some f ∧ p !! "last_name" = Some l
      ∧ requests' = requests ++ [ {| id := item_uuid d; username := u; first_name := f;
                                     last_name := l; created_at := now d |} ].
Proof.
  unfold handler.
  destruct (_parse_payload event) as [payload|e] eqn:Hparse; [| intros [= _ <-]; by left].
  destruct (missing_fields payload required) as [[|m ms]|e];
    [| intros [= _ <-]; by left | intros [= _ <-]; by left].
  destruct payload as [| | | | | |p]; try (intros [= _ <-]; by left).
  simpl.
  destruct (p !! "username") as [u|] eqn:Hu; [| intros [= _ <-]; by left].
  destruct (p !! "first_name") as [f|] eqn:Hf; [| intros [= _ <-]; by left].
  destruct (p !! "last_name") as [l|] eqn:Hl; [| intros [= _ <-]; by left].
  simpl. destruct (put_item requests _); intros [= _ <-]; right; eauto 10.
Qed.

(** X26: every response of the handler has the content type
    [application/json]; its status is 400, with nothing written and no
    [x-request-id], or 201, with exactly one item written, accepted by the
    table, and the request id of the context, or else the first drawn
    uuid, in [x-request-id]. *)
Theorem create_user_responses (event : json) (aws_request_id : option string)
    (d : draws) (requests requests' : list item) (resp : response) :
  handler event aws_request_id d requests = (Ok resp, requests') →
  headers resp !! "Content-Type" = Some "application/json"
  ∧ ((statusCode resp = 400 ∧ requests' = requests
      ∧ headers resp !! "x-request-id" = None)
     ∨ (statusCode resp = 201
        ∧ (∃ new_item, requests' = requests ++ [new_item]
                       ∧ put_item requests new_item = Ok ())
        ∧ headers resp !! "x-request-id"
          = Some (default (request_uuid d) aws_request_id))).
Proof.
  unfold handler.
  destruct (_parse_payload event) as [payload|e].
  2: { intros [= <- <-]. split; [by apply content_type |]. left. by repeat split. }
  destruct (missing_fields payload required) as [[|m ms]|e]; [| | done].
  2: { intros [= <- <-]. split; [by apply content_type |]. left. by repeat split. }
  destruct (rbind (getitem payload "username") _) as [new_item|e]; [| done].
  destruct (put_item requests new_item) as [[]|e] eqn:Hput; [| done].
  intros [= <- <-]. split.
  - apply content_type. simpl. by rewrite lookup_singleton_ne.
  - right. split; [done |]. split; [by exists new_item |].
    unfold _response. simpl. rewrite lookup_union_l by (by rewrite lookup_singleton_ne).
    apply lookup_singleton_eq.
Qed.

(** X27: a payload that is JSON and is [null], a boolean or a number is
    not answered with a 400: the handler raises the [TypeError] of the
    membership test, and writes nothing. *)
Theorem create_user_scalar_payload (event : json) (aws_request_id : option string)
    (d : draws) (requests : list item) (v : json) :
  _parse_payload event = Ok v →
  match v with JNull | JBool _ | JInt _ | JFloat _ => True | _ => False end →
  handler event aws_request_id d requests
  = (Raise (TypeError ("argument of type '" +:+ type_name v +:+ "' is not iterable")),
     requests).
Proof.
  intros Hparse Hscalar. unfold handler.
  by rewrite Hparse, (missing_fields_scalar v Hscalar).
Qed.

(** X28: an event that is not a dict, and an event whose [body] is
    there and empty, are both read as the empty payload: the answer is the
    status 400 that names all three fields, and nothing is written. *)
Theorem create_user_empty_payload (event : json) (aws_request_id : option string)
    (d : draws) (requests : list item) :
  is_dict event = false
  ∨ (∃ e v, event = JObj e ∧ e !! "body" = Some v ∧ truthy v = false
            ∧ truthy (dict_get e "isBase64Encoded") = false) →
  _parse_payload event = Ok (JObj ∅)
  ∧ handler event aws_request_id d requests
    = (Ok (_response 400
             (error_body "Missing required fields: username, first_name, last_name") None),
       requests).
Proof.
  intros Hshape.
  assert (_parse_payload event = Ok (JObj ∅)) as Hparse.
  { destruct Hshape as [Hnot | (e & v & -> & Hbody & Hv & Hflag)].
    - by destruct event.
    - unfold _parse_payload, dict_has, dict_get. rewrite Hbody.
      unfold dict_get in Hflag. rewrite Hflag. simpl. rewrite Hv.
      unfold loads. by rewrite loads_empty_object. }
  split; [done |]. unfold handler. by rewrite Hparse.
Qed.

End Facts.

End CreateUserFacts.

Lemma create_user_missing_fields_witness :
  @CreateUser.handler _ DemoUsers.table
    (JObj {[ "body" := JStr DemoUsers.body_text ]}) None DemoUsers.drawn []
  = (Ok (@CreateUser._response _ DemoUsers.table 400
           (CreateUser.error_body "Missing required fields: first_name, last_name") None),
     []).
Proof.
  apply (@CreateUserFacts.create_user_missing_fields _ DemoUsers.table
           (JObj {[ "body" := JStr DemoUsers.body_text ]}) None DemoUsers.drawn []
           {[ "username" := JStr "ada" ]} "first_name" ["last_name"]);
    reflexivity.
Defined.

Lemma create_user_writes_witness :
  (@CreateUser.handler _ DemoUsers.table (JObj DemoUsers.complete) (Some "req-1")
     DemoUsers.drawn []).2
  = [DemoUsers.ada].
Proof.
  rewrite (@CreateUserFacts.create_user_writes _ DemoUsers.table
             (JObj DemoUsers.complete) (Some "req-1") DemoUsers.drawn []
             DemoUsers.complete (JStr "ada") (JStr "Ada") (JStr "Lovelace")
             eq_refl eq_refl eq_refl eq_refl).
  reflexivity.
Defined.

Lemma create_user_at_most_one_put_witness :
  (@CreateUser.handler _ DemoUsers.table (JInt 3) None DemoUsers.drawn [DemoUsers.ada]).2
  = [DemoUsers.ada]
  ∨ ∃ p u f l,
      @CreateUser._parse_payload _ DemoUsers.table (JInt 3) = Ok (JObj p)
      ∧ p !! "username" = Some u ∧ p !! "first_name" = Some f ∧ p !! "last_name" = Some l
      ∧ (@CreateUser.handler _ DemoUsers.table (JInt 3) None DemoUsers.drawn
           [DemoUsers.ada]).2
        = [DemoUsers.ada]
          ++ [ {| CreateUser.id := CreateUser.item_uuid DemoUsers.drawn;
                  CreateUser.username := u; CreateUser.first_name := f;
                  CreateUser.last_name := l;
                  CreateUser.created_at := CreateUser.now DemoUsers.drawn |} ].
Proof.
  apply (@CreateUserFacts.create_user_at_most_one_put _ DemoUsers.table (JInt 3) None
           DemoUsers.drawn [DemoUsers.ada] _
           (@CreateUser.handler _ DemoUsers.table (JInt 3) None DemoUsers.drawn
              [DemoUsers.ada]).1).
  apply surjective_pairing.
Defined.

Lemma create_user_responses_witness :
  CreateUser.headers
    (@CreateUser._response _ DemoUsers.table 201
       (JObj {[ "message" := JStr "User created";
                "user" := CreateUser.item_json DemoUsers.ada ]})
       (Some {[ "x-request-id" := "req-1" ]})) !! "Content-Type"
  = Some "application/json".
Proof.
  apply (@CreateUserFacts.create_user_responses _ DemoUsers.table
           (JObj DemoUsers.complete) (Some "req-1") DemoUsers.drawn [] [DemoUsers.ada]).
  reflexivity.
Defined.

Lemma create_user_scalar_payload_witness :
  @CreateUser.handler _ DemoUsers.table (JObj {[ "body" := JStr "null" ]}) None
    DemoUsers.drawn []
  = (Raise (TypeError "argument of type 'NoneType' is not iterable"), []).
Proof.
  apply (@CreateUserFacts.create_user_scalar_payload _ DemoUsers.table
           (JObj {[ "body" := JStr "null" ]}) None DemoUsers.drawn [] JNull);
    [by vm_compute | exact I].
Defined.

Lemma create_user_empty_payload_witness :
  @CreateUser.handler _ DemoUsers.table (JInt 3) None DemoUsers.drawn []
  = (Ok (@CreateUser._response _ DemoUsers.table 400
           (CreateUser.error_body "Missing required fields: username, first_name, last_name")
           None),
     []).
Proof.
  apply (@CreateUserFacts.create_user_empty_payload _ DemoUsers.table (JInt 3) None
           DemoUsers.drawn []).
  by left.
Defined.
